(** * Moda Brasileira storefront: the JSON document store, the user and
    product handlers and the admin gate of [app.py], embedded in Rocq.

    Python dictionaries with a fixed set of keys are records, the two Flask
    multi-dicts are finite maps, the file system is a finite map from
    paths to file contents, and every handler is a computation in a state
    monad whose state survives a raised exception (what was written before
    the [raise] stays written). *)

From Stdlib Require Import ZArith Ascii String List Sorted Lia.
From stdpp Require Import base option list gmap strings.

Local Open Scope string_scope.
Local Open Scope Z_scope.

(** ** UTF-8

    Rocq strings are byte strings; a Python [str] is held as its UTF-8
    encoding.  [decode] is the strict decoder of [open(..., encoding=
    'utf-8')]: it rejects stray and missing continuation bytes, overlong
    forms, surrogates and code points above U+10FFFF. *)
Module PyUtf8.

Definition cont (b : N) : bool := ((128 <=? b) && (b <=? 191))%N.

Definition low6 (b : N) : N := (b - 128)%N.

Fixpoint decode (l : list ascii) : option (list N) :=
  match l with
  | [] => Some []
  | c0 :: l1 =>
      let b0 := N_of_ascii c0 in
      if (b0 <? 128)%N then option_map (cons b0) (decode l1)
      else
        match l1 with
        | [] => None
        | c1 :: l2 =>
            let b1 := N_of_ascii c1 in
            if ((194 <=? b0) && (b0 <=? 223))%N then
              if cont b1 then
                option_map (cons ((b0 - 192) * 64 + low6 b1)%N) (decode l2)
              else None
            else
              match l2 with
              | [] => None
              | c2 :: l3 =>
                  let b2 := N_of_ascii c2 in
                  if ((224 <=? b0) && (b0 <=? 239))%N then
                    if cont b1 && cont b2
                       && (negb (b0 =? 224)%N || (160 <=? b1)%N)
                       && (negb (b0 =? 237)%N || (b1 <=? 159)%N) then
                      option_map
                        (cons ((b0 - 224) * 4096 + low6 b1 * 64 + low6 b2)%N)
                        (decode l3)
                    else None
                  else
                    match l3 with
                    | [] => None
                    | c3 :: l4 =>
                        let b3 := N_of_ascii c3 in
                        if ((240 <=? b0) && (b0 <=? 244))%N then
                          if cont b1 && cont b2 && cont b3
                             && (negb (b0 =? 240)%N || (144 <=? b1)%N)
                             && (negb (b0 =? 244)%N || (b1 <=? 143)%N) then
                            option_map
                              (cons ((b0 - 240) * 262144 + low6 b1 * 4096
                                     + low6 b2 * 64 + low6 b3)%N)
                              (decode l4)
                          else None
                        else None
                    end
              end
        end
  end.

Definition valid (s : string) : bool :=
  match decode (list_ascii_of_string s) with
  | Some _ => true
  | None => false
  end.

End PyUtf8.

(** ** Python's [float(str)]

    As CPython does it: every code point from 127 on is replaced by a
    space when it is Unicode white space, by its ASCII digit when it is a
    Unicode decimal digit, and by a question mark otherwise; then the
    ASCII grammar of the language reference applies: surrounding white
    space, an optional sign, then [inf], [infinity], [nan] (any case) or a
    decimal number with optional fraction and exponent, where single
    underscores may separate digits.  A finite result is kept as the
    decimal [(-1)^neg * mant * 10^exp] the text denotes: rounding to the
    nearest binary64 is not modelled, except that a value that rounds
    beyond the largest binary64 is [inf]. *)
Module PyFloat.

Inductive t :=
  | Finite (neg : bool) (mant : N) (exp : Z)
  | Inf (neg : bool)
  | NaN.

(** space, \t, \n, \v, \f, \r *)
Definition is_space (c : ascii) : bool :=
  let n := nat_of_ascii c in
  ((9 <=? n)%nat && (n <=? 13)%nat) || (n =? 32)%nat.

Definition digit_val (c : ascii) : option N :=
  let n := N_of_ascii c in
  if ((48 <=? n) && (n <=? 57))%N then Some (n - 48)%N else None.

Definition lower (c : ascii) : ascii :=
  let n := nat_of_ascii c in
  if ((65 <=? n) && (n <=? 90))%nat then ascii_of_nat (n + 32) else c.

Fixpoint lstrip (l : list ascii) : list ascii :=
  match l with
  | c :: l' => if is_space c then lstrip l' else l
  | [] => []
  end.

Definition strip (l : list ascii) : list ascii :=
  rev (lstrip (rev (lstrip l))).

(** digit (["_"] digit)*, after the first digit has been read *)
Fixpoint digits_tail (acc : N) (cnt : nat) (l : list ascii)
  : N * nat * list ascii :=
  match l with
  | c :: l' =>
      match digit_val c with
      | Some d => digits_tail (10 * acc + d)%N (S cnt) l'
      | None =>
          if Ascii.eqb c "_" then
            match l' with
            | c' :: l'' =>
                match digit_val c' with
                | Some d => digits_tail (10 * acc + d)%N (S cnt) l''
                | None => (acc, cnt, l)
                end
            | [] => (acc, cnt, l)
            end
          else (acc, cnt, l)
      end
  | [] => (acc, cnt, l)
  end.

Definition digitpart (l : list ascii) : option (N * nat * list ascii) :=
  match l with
  | c :: l' =>
      match digit_val c with
      | Some d => Some (digits_tail d 1%nat l')
      | None => None
      end
  | [] => None
  end.

Definition sign (l : list ascii) : bool * list ascii :=
  match l with
  | c :: l' =>
      if Ascii.eqb c "-" then (true, l')
      else if Ascii.eqb c "+" then (false, l')
      else (false, l)
  | [] => (false, l)
  end.

(** number ::= [digitpart] "." digitpart | digitpart ["."], as
    (mantissa, number of fraction digits, rest) *)
Definition number (l : list ascii) : option (N * nat * list ascii) :=
  match digitpart l with
  | Some (i, _, rest) =>
      match rest with
      | c :: rest' =>
          if Ascii.eqb c "." then
            match digitpart rest' with
            | Some (f, k, rest'') => Some ((i * 10 ^ N.of_nat k + f)%N, k, rest'')
            | None => Some (i, 0%nat, rest')
            end
          else Some (i, 0%nat, rest)
      | [] => Some (i, 0%nat, [])
      end
  | None =>
      match l with
      | c :: rest' =>
          if Ascii.eqb c "." then
            match digitpart rest' with
            | Some (f, k, rest'') => Some (f, k, rest'')
            | None => None
            end
          else None
      | [] => None
      end
  end.

(** exponent ::= ("e" | "E") [sign] digitpart, then the end of the input *)
Definition exponent (l : list ascii) : option Z :=
  match l with
  | [] => Some 0
  | c :: l' =>
      if Ascii.eqb (lower c) "e" then
        let '(neg, l'') := sign l' in
        match digitpart l'' with
        | Some (e, _, []) => Some (if neg then - Z.of_N e else Z.of_N e)
        | _ => None
        end
      else None
  end.

(** [2^1024 - 2^970]: the least value that rounds to infinity. *)
Definition overflow_bound : Z := 2 ^ 1024 - 2 ^ 970.

(** [overflow_bound <= mant * 10^exp] *)
Definition overflows (mant : N) (exp : Z) : bool :=
  if (mant =? 0)%N then false
  else if exp <? 0 then
    if (N.log2 mant <? 1023)%N then false
    else overflow_bound * 10 ^ (- exp) <=? Z.of_N mant
  else if 309 <? exp then true
  else overflow_bound <=? Z.of_N mant * 10 ^ exp.

Definition finite (neg : bool) (mant : N) (exp : Z) : t :=
  if overflows mant exp then Inf neg else Finite neg mant exp.

Definition of_chars (l : list ascii) : option t :=
  let '(neg, body) := sign (strip l) in
  let word := string_of_list_ascii (map lower body) in
  if String.eqb word "inf" || String.eqb word "infinity" then Some (Inf neg)
  else if String.eqb word "nan" then Some NaN
  else
    match number body with
    | Some (m, k, rest) =>
        match exponent rest with
        | Some e => Some (finite neg m (e - Z.of_nat k))
        | None => None
        end
    | None => None
    end.

(** U+0085, U+00A0, U+1680, U+2000 to U+200A, U+2028, U+2029, U+202F,
    U+205F, U+3000 *)
Definition is_unicode_space (cp : N) : bool :=
  ((cp =? 133) || (cp =? 160) || (cp =? 5760)
   || ((8192 <=? cp) && (cp <=? 8202))
   || (cp =? 8232) || (cp =? 8233) || (cp =? 8239) || (cp =? 8287)
   || (cp =? 12288))%N.

(** The code points of the digit zero of every run of ten decimal digits
    of the Unicode database (version 14.0, that of CPython 3.11). *)
Definition digit_zeros : list N :=
  [48; 1632; 1776; 1984; 2406; 2534; 2662; 2790; 2918; 3046; 3174;
   3302; 3430; 3558; 3664; 3792; 3872; 4160; 4240; 6112; 6160;
   6470; 6608; 6784; 6800; 6992; 7088; 7232; 7248; 42528; 43216;
   43264; 43472; 43504; 43600; 44016; 65296; 66720; 68912; 69734;
   69872; 69942; 70096; 70384; 70736; 70864; 71248; 71360; 71472;
   71904; 72016; 72784; 73040; 73120; 92768; 92864; 93008; 120782;
   120792; 120802; 120812; 120822; 123200; 123632; 125264; 130032]%N.

Definition unicode_digit (cp : N) : option N :=
  match List.find (fun z => ((z <=? cp) && (cp <? z + 10))%N) digit_zeros with
  | Some z => Some (cp - z)%N
  | None => None
  end.

Definition to_ascii (cp : N) : ascii :=
  if (cp <? 127)%N then ascii_of_N cp
  else if is_unicode_space cp then " "%char
  else
    match unicode_digit cp with
    | Some d => ascii_of_N (48 + d)
    | None => "?"%char
    end.

Definition of_string (s : string) : option t :=
  match PyUtf8.decode (list_ascii_of_string s) with
  | Some cps => of_chars (map to_ascii cps)
  | None => None
  end.

(** [0 <= x] on the denoted value; [nan] compares false with everything. *)
Definition nonneg (x : t) : bool :=
  match x with
  | Finite neg m _ => negb neg || (m =? 0)%N
  | Inf neg => negb neg
  | NaN => false
  end.

End PyFloat.

(** ** Data model *)

(** A record of [users.json]: the keys [email], [password], [is_admin]. *)
Record user := User {
  u_email : string;
  u_password : string;
  u_is_admin : bool
}.

(** A record of [products.json].  [edit_product] stores whatever
    [request.form.get] returns, so the three text fields may hold [None]. *)
Record product := Product {
  p_id : Z;
  p_name : option string;
  p_description : option string;
  p_price : PyFloat.t;
  p_category : option string;
  p_sizes : list string;
  p_image : string;
  p_created_at : string
}.

(** A parsed JSON document: an object in which the keys [users] and
    [products] are present or not. *)
Record document := Document {
  d_users : option (list user);
  d_products : option (list product)
}.

(** A file holds a JSON document, written [Json d], or other bytes,
    written [Raw bytes]: bytes that are not UTF-8, or text that is not
    JSON.  A file with JSON text of another shape than [document] (not an
    object, or with [users] or [products] not a list of such records) is
    outside this model. *)
Inductive file :=
  | Json (d : document)
  | Raw (bytes : string).

(** The Flask session: the keys [user_email] and [is_admin]. *)
Record session := Session {
  s_user_email : option string;
  s_is_admin : option bool
}.

(** The state a request runs in: the file system, the identity keys of
    the session, and the notices pending in it. *)
Record world := World {
  files : gmap string file;
  sess : session;
  flashes : list (string * string)
}.

Inductive http_method := GET | POST.

(** An uploaded file ([werkzeug.FileStorage]); it is truthy when its
    filename is not empty. *)
Record upload := Upload {
  up_filename : string;
  up_content : string
}.

Record request := Request {
  method : http_method;
  form : gmap string (list string);
  files_image : option upload
}.

(** What the environment hands to one request: the salt drawn by
    [generate_password_hash] and the two readings of [datetime.now()]. *)
Record env := Env {
  env_salt : string;
  env_stamp : string;
  env_iso : string
}.

Inductive context :=
  | NoContext
  | WithProducts (ps : list product)
  | WithProduct (p : product).

Inductive response :=
  | Redirect (endpoint : string)
  | Render (template : string) (ctx : context).

Inductive exn :=
  | FileNotFoundError
  | JSONDecodeError
  | UnicodeDecodeError
  | ValueError
  | TypeError
  | OtherError (name : string).

Inductive outcome (A : Type) :=
  | Returned (a : A)
  | Raised (e : exn).
Arguments Returned {A} a.
Arguments Raised {A} e.

(** The functions of werkzeug the handlers call.  [check_password_hash]
    is applied to whatever [request.form.get('password')] returned. *)
Class Werkzeug := {
  generate_password_hash : string -> string -> string;
  check_password_hash : string -> option string -> outcome bool;
  secure_filename : string -> string
}.

(** ** The handler monad: state that survives an exception *)

Definition M (A : Type) : Type := world -> outcome A * world.

Definition ret {A} (a : A) : M A := fun w => (Returned a, w).

Definition bind {A B} (c : M A) (k : A -> M B) : M B :=
  fun w =>
    match c w with
    | (Returned a, w') => k a w'
    | (Raised e, w') => (Raised e, w')
    end.

Definition raise {A} (e : exn) : M A := fun w => (Raised e, w).

(** [try: c except (FileNotFoundError, json.JSONDecodeError): h] *)
Definition try_except {A} (c : M A) (h : M A) : M A :=
  fun w =>
    match c w with
    | (Raised FileNotFoundError, w') => h w'
    | (Raised JSONDecodeError, w') => h w'
    | r => r
    end.

Notation "'let*' x ':=' c 'in' k" := (bind c (fun x => k))
  (at level 10, x name, c at level 100, k at level 200).
Notation "'let*' '_' ':=' c 'in' k" := (bind c (fun _ => k))
  (at level 10, c at level 100, k at level 200).

Definition of_outcome {A} (o : outcome A) : M A := fun w => (o, w).

Definition USERS_FILE : string := "data/users.json".
Definition PRODUCTS_FILE : string := "data/products.json".
Definition UPLOAD_FOLDER : string := "static/uploads".

Definition exists_file (filename : string) : M bool :=
  fun w => (Returned (bool_decide (is_Some (files w !! filename))), w).

Definition load_json (filename : string) : M document :=
  fun w =>
    match files w !! filename with
    | None => (Raised FileNotFoundError, w)
    | Some (Raw bytes) =>
        if PyUtf8.valid bytes then (Raised JSONDecodeError, w)
        else (Raised UnicodeDecodeError, w)
    | Some (Json d) => (Returned d, w)
    end.

Definition put_file (filename : string) (f : file) (w : world) : world :=
  {| files := <[filename := f]> (files w);
     sess := sess w; flashes := flashes w |}.

Definition add_flash (message category : string) (w : world) : world :=
  {| files := files w; sess := sess w;
     flashes := (flashes w ++ [(message, category)])%list |}.

Definition put_session (s : session) (w : world) : world :=
  {| files := files w; sess := s; flashes := flashes w |}.

Definition write_file (filename : string) (f : file) : M unit :=
  fun w => (Returned tt, put_file filename f w).

Definition save_json (filename : string) (data : document) : M unit :=
  write_file filename (Json data).

Definition flash (message category : string) : M unit :=
  fun w => (Returned tt, add_flash message category w).

Definition get_session : M session := fun w => (Returned (sess w), w).

Definition set_session (s : session) : M unit :=
  fun w => (Returned tt, put_session s w).

(** [session.clear()]: Flask keeps the pending notices in the session,
    so they go with the identity. *)
Definition session_clear : M unit :=
  fun w => (Returned tt,
            {| files := files w;
               sess := {| s_user_email := None; s_is_admin := None |};
               flashes := [] |}).

Definition users_doc (us : list user) : document :=
  {| d_users := Some us; d_products := None |}.
Definition products_doc (ps : list product) : document :=
  {| d_users := None; d_products := Some ps |}.

(** [data.get('users', [])] and [data.get('products', [])] *)
Definition get_users (data : document) : list user :=
  default [] (d_users data).
Definition get_products (data : document) : list product :=
  default [] (d_products data).

(** [request.form.get(k)] and [request.form.getlist(k)] *)
Definition form_get (r : request) (k : string) : option string :=
  form r !! k ≫= head.
Definition form_getlist (r : request) (k : string) : list string :=
  default [] (form r !! k).

(** Truth value of an optional string and of an optional upload. *)
Definition truthy (o : option string) : bool :=
  match o with
  | Some s => negb (String.eqb s "")
  | None => false
  end.
Definition upload_truthy (o : option upload) : bool :=
  match o with
  | Some u => negb (String.eqb (up_filename u) "")
  | None => false
  end.

(** [float(x)] *)
Definition float (x : option string) : M PyFloat.t :=
  match x with
  | None => raise TypeError
  | Some s =>
      match PyFloat.of_string s with
      | Some v => ret v
      | None => raise ValueError
      end
  end.

(** [max(l, default=d)] *)
Definition max_default (l : list Z) (d : Z) : Z :=
  match l with
  | [] => d
  | x :: l' => fold_left Z.max l' x
  end.

(** [max([p['id'] for p in products], default=0) + 1] *)
Definition new_id (products : list product) : Z :=
  max_default (p_id <$> products) 0 + 1.

(** [next((p for p in products if p['id'] == product_id), None)]: the
    first match, with its position, since [edit_product] mutates the
    dictionary it found inside the list. *)
Definition find_product (product_id : Z) (products : list product)
  : option (nat * product) :=
  list_find (λ p, p_id p = product_id) products.

(** [next((u for u in users if u['email'] == email), None)] *)
Definition find_user (email : option string) (users : list user)
  : option user :=
  List.find (λ u, bool_decide (Some (u_email u) = email)) users.

(** ** The handlers *)
Section Handlers.
Context `{Werkzeug}.

Definition init_json_files (e : env) : M unit :=
  let* users_exist := exists_file USERS_FILE in
  let* _ :=
    if negb users_exist then
      let admin :=
        {| u_email := "admin@modabrasileira.com";
           u_password := generate_password_hash (env_salt e) "admin123";
           u_is_admin := true |} in
      save_json USERS_FILE (users_doc [admin])
    else ret tt in
  let* products_exist := exists_file PRODUCTS_FILE in
  if negb products_exist then save_json PRODUCTS_FILE (products_doc [])
  else ret tt.

Definition login_required (f : M response) : M response :=
  let* s := get_session in
  if negb (bool_decide (is_Some (s_user_email s))) then ret (Redirect "login")
  else f.

Definition admin_required (f : M response) : M response :=
  let* s := get_session in
  if negb (bool_decide (is_Some (s_user_email s)))
     || negb (bool_decide (s_is_admin s = Some true)) then
    let* _ := flash "Acesso negado. Apenas administradores." "error" in
    ret (Redirect "index")
  else f.

Definition index (e : env) : M response :=
  let* products :=
    try_except
      (let* data := load_json PRODUCTS_FILE in
       ret (get_products data))
      (let* _ := init_json_files e in
       ret []) in
  ret (Render "index.html" (WithProducts products)).

Definition product_detail (product_id : Z) : M response :=
  try_except
    (let* data := load_json PRODUCTS_FILE in
     let products := get_products data in
     match find_product product_id products with
     | None =>
         let* _ := flash "Produto não encontrado" "error" in
         ret (Redirect "index")
     | Some (_, product) =>
         ret (Render "product_detail.html" (WithProduct product))
     end)
    (let* _ := flash "Erro ao carregar produtos" "error" in
     ret (Redirect "index")).

Definition register (r : request) (e : env) : M response :=
  match method r with
  | POST =>
      let email := form_get r "email" in
      let password := form_get r "password" in
      if negb (truthy email) || negb (truthy password) then
        let* _ := flash "Preencha todos os campos" "error" in
        ret (Redirect "register")
      else
        let* data := load_json USERS_FILE in
        let users := get_users data in
        if existsb (λ u, bool_decide (Some (u_email u) = email)) users then
          let* _ := flash "Email já cadastrado" "error" in
          ret (Redirect "register")
        else
          let users :=
            (users ++ [ {| u_email := default "" email;
                           u_password :=
                             generate_password_hash (env_salt e)
                               (default "" password);
                           u_is_admin := false |} ])%list in
          let* _ := save_json USERS_FILE (users_doc users) in
          let* _ := flash "Cadastro realizado com sucesso!" "success" in
          ret (Redirect "login")
  | GET => ret (Render "register.html" NoContext)
  end.

Definition login (r : request) : M response :=
  match method r with
  | POST =>
      let email := form_get r "email" in
      let password := form_get r "password" in
      let* data := load_json USERS_FILE in
      let users := get_users data in
      let invalid :=
        let* _ := flash "Email ou senha incorretos" "error" in
        ret (Redirect "login") in
      match find_user email users with
      | Some user =>
          let* ok := of_outcome (check_password_hash (u_password user) password) in
          if ok then
            let* _ := set_session {| s_user_email := email;
                                     s_is_admin := Some (u_is_admin user) |} in
            let* _ := flash "Login realizado com sucesso!" "success" in
            ret (Redirect (if u_is_admin user then "admin_panel" else "index"))
          else invalid
      | None => invalid
      end
  | GET => ret (Render "login.html" NoContext)
  end.

Definition logout : M response :=
  let* _ := session_clear in
  let* _ := flash "Logout realizado com sucesso" "success" in
  ret (Redirect "index").

Definition admin_panel : M response :=
  admin_required
    (let* data := load_json PRODUCTS_FILE in
     ret (Render "admin.html" (WithProducts (get_products data)))).

(** [secure_filename], the timestamp prefix and [image.save]; returns the
    prefixed file name. *)
Definition save_image (img : upload) (e : env) : M string :=
  let filename := secure_filename (up_filename img) in
  let filename := env_stamp e ++ "_" ++ filename in
  let image_path := UPLOAD_FOLDER ++ "/" ++ filename in
  let* _ := write_file image_path (Raw (up_content img)) in
  ret filename.

Definition add_product_view (r : request) (e : env) : M response :=
  match method r with
  | POST =>
      let name := form_get r "name" in
      let description := form_get r "description" in
      let price := form_get r "price" in
      let category := form_get r "category" in
      let sizes := form_getlist r "sizes" in
      let image := files_image r in
      if negb (truthy name && truthy description && truthy price
               && truthy category && upload_truthy image) then
        let* _ := flash "Preencha todos os campos" "error" in
        ret (Redirect "add_product")
      else
        match image with
        | None => raise (OtherError "AttributeError")
        | Some img =>
            let* filename := save_image img e in
            let* data := load_json PRODUCTS_FILE in
            let products := get_products data in
            let id := new_id products in
            let* price := float price in
            let products :=
              (products ++ [ {| p_id := id;
                                p_name := name;
                                p_description := description;
                                p_price := price;
                                p_category := category;
                                p_sizes := sizes;
                                p_image := "uploads/" ++ filename;
                                p_created_at := env_iso e |} ])%list in
            let* _ := save_json PRODUCTS_FILE (products_doc products) in
            let* _ := flash "Produto adicionado com sucesso!" "success" in
            ret (Redirect "admin_panel")
        end
  | GET => ret (Render "add_product.html" NoContext)
  end.

Definition add_product (r : request) (e : env) : M response :=
  admin_required (add_product_view r e).

Definition edit_product_view (product_id : Z) (r : request) (e : env)
  : M response :=
  let* data := load_json PRODUCTS_FILE in
  let products := get_products data in
  match find_product product_id products with
  | None =>
      let* _ := flash "Produto não encontrado" "error" in
      ret (Redirect "admin_panel")
  | Some (i, product) =>
      match method r with
      | POST =>
          let name := form_get r "name" in
          let description := form_get r "description" in
          let* price := float (form_get r "price") in
          let category := form_get r "category" in
          let sizes := form_getlist r "sizes" in
          let image := files_image r in
          let* image_ref :=
            match image with
            | Some img =>
                if upload_truthy image then
                  let* filename := save_image img e in
                  ret ("uploads/" ++ filename)
                else ret (p_image product)
            | None => ret (p_image product)
            end in
          let product :=
            {| p_id := p_id product;
               p_name := name;
               p_description := description;
               p_price := price;
               p_category := category;
               p_sizes := sizes;
               p_image := image_ref;
               p_created_at := p_created_at product |} in
          let products := <[i := product]> products in
          let* _ := save_json PRODUCTS_FILE (products_doc products) in
          let* _ := flash "Produto atualizado com sucesso!" "success" in
          ret (Redirect "admin_panel")
      | GET => ret (Render "edit_product.html" (WithProduct product))
      end
  end.

Definition edit_product (product_id : Z) (r : request) (e : env)
  : M response :=
  admin_required (edit_product_view product_id r e).

Definition delete_product_view (product_id : Z) : M response :=
  let* data := load_json PRODUCTS_FILE in
  let products := get_products data in
  let products := filter (λ p, p_id p ≠ product_id) products in
  let* _ := save_json PRODUCTS_FILE (products_doc products) in
  let* _ := flash "Produto deletado com sucesso!" "success" in
  ret (Redirect "admin_panel").

Definition delete_product (product_id : Z) : M response :=
  admin_required (delete_product_view product_id).

End Handlers.

(** ** The product collection under create and delete

    The list transformations [add_product] and [delete_product] write
    back, and traces of them. *)

Definition with_id (i : Z) (p : product) : product :=
  {| p_id := i; p_name := p_name p; p_description := p_description p;
     p_price := p_price p; p_category := p_category p;
     p_sizes := p_sizes p; p_image := p_image p;
     p_created_at := p_created_at p |}.

(** [products.append({'id': new_id, ...})]; the id of [p] is ignored. *)
Definition create (p : product) (products : list product) : list product :=
  (products ++ [with_id (new_id products) p])%list.

(** [[p for p in products if p['id'] != product_id]] *)
Definition delete (product_id : Z) (products : list product) : list product :=
  filter (λ p, p_id p ≠ product_id) products.

Inductive op :=
  | Create (p : product)
  | Delete (product_id : Z).

Definition step (o : op) (products : list product) : list product :=
  match o with
  | Create p => create p products
  | Delete i => delete i products
  end.

(** The collection after a sequence of operations. *)
Definition run (ops : list op) (products : list product) : list product :=
  fold_left (λ ps o, step o ps) ops products.

(** The ids the creates of a sequence assign, in order. *)
Fixpoint assigned (ops : list op) (products : list product) : list Z :=
  match ops with
  | [] => []
  | Create p :: ops' => new_id products :: assigned ops' (create p products)
  | Delete i :: ops' => assigned ops' (delete i products)
  end.

(** No delete of the sequence removes a product that holds the largest
    id stored at that moment. *)
Fixpoint spares_max (ops : list op) (products : list product) : Prop :=
  match ops with
  | [] => True
  | Create p :: ops' => spares_max ops' (create p products)
  | Delete i :: ops' =>
      (i ∈ (p_id <$> products) → i < max_default (p_id <$> products) 0)
      ∧ spares_max ops' (delete i products)
  end.

(** What a handler would read from the two collection files. *)
Definition stored_products (w : world) : option (list product) :=
  match files w !! PRODUCTS_FILE with
  | Some (Json d) => Some (get_products d)
  | _ => None
  end.

Definition stored_users (w : world) : option (list user) :=
  match files w !! USERS_FILE with
  | Some (Json d) => Some (get_users d)
  | _ => None
  end.

Definition sample_product : product :=
  {| p_id := 0; p_name := Some "Shirt"; p_description := Some "Cotton";
     p_price := PyFloat.Finite false 2990 (-2); p_category := Some "tops";
     p_sizes := ["M"; "L"]; p_image := "uploads/1_shirt.png";
     p_created_at := "2024-01-01T00:00:00" |}.

(** The request carries an identity whose admin flag is set. *)
Definition admin_session (w : world) : Prop :=
  is_Some (s_user_email (sess w)) ∧ s_is_admin (sess w) = Some true.

Definition forbidden (w : world) : outcome response * world :=
  (Returned (Redirect "index"),
   add_flash "Acesso negado. Apenas administradores." "error" w).

(** The answer of [login] to a rejected attempt. *)
Definition invalid_credentials (w : world) : outcome response * world :=
  (Returned (Redirect "login"),
   add_flash "Email ou senha incorretos" "error" w).

(** The answer of [login] to an accepted attempt of [user]. *)
Definition logged_in (email : option string) (user : user) (w : world)
  : outcome response * world :=
  (Returned (Redirect (if u_is_admin user then "admin_panel" else "index")),
   add_flash "Login realizado com sucesso!" "success"
     (put_session {| s_user_email := email;
                     s_is_admin := Some (u_is_admin user) |} w)).

(** [all([name, description, price, category, image])] on a request *)
Definition all_present (r : request) : bool :=
  truthy (form_get r "name") && truthy (form_get r "description")
  && truthy (form_get r "price") && truthy (form_get r "category")
  && upload_truthy (files_image r).

(** The name under which [save_image] stores an upload. *)
Definition stored_name `{Werkzeug} (img : upload) (e : env) : string :=
  env_stamp e ++ "_" ++ secure_filename (up_filename img).

(** What [edit_product] leaves in the [image] key, the world after its
    optional [image.save], and the dictionary after its assignments. *)
Definition edited_image `{Werkzeug} (r : request) (e : env) (p : product)
  : string :=
  match files_image r with
  | Some img =>
      if upload_truthy (files_image r) then "uploads/" ++ stored_name img e
      else p_image p
  | None => p_image p
  end.

Definition after_upload `{Werkzeug} (r : request) (e : env) (w : world)
  : world :=
  match files_image r with
  | Some img =>
      if upload_truthy (files_image r) then snd (save_image img e w) else w
  | None => w
  end.

Definition edited `{Werkzeug} (r : request) (e : env) (price : PyFloat.t)
    (p : product) : product :=
  {| p_id := p_id p;
     p_name := form_get r "name";
     p_description := form_get r "description";
     p_price := price;
     p_category := form_get r "category";
     p_sizes := form_getlist r "sizes";
     p_image := edited_image r e p;
     p_created_at := p_created_at p |}.

(** The record [init_json_files] seeds [users.json] with. *)
Definition default_admin `{Werkzeug} (e : env) : user :=
  {| u_email := "admin@modabrasileira.com";
     u_password := generate_password_hash (env_salt e) "admin123";
     u_is_admin := true |}.

(** ** Concrete data for the worked examples *)

(** A stand-in for werkzeug: the hash is the salt, a dollar sign and the
    password; checking compares against every salt-free suffix; a missing
    password makes the check raise. *)
Fixpoint ends_with (suffix s : string) : bool :=
  String.eqb s suffix ||
  match s with
  | EmptyString => false
  | String _ s' => ends_with suffix s'
  end.

Definition sample_werkzeug : Werkzeug :=
  {| generate_password_hash := λ salt pw, salt ++ "$" ++ pw;
     check_password_hash := λ h pw,
       match pw with
       | Some pw => Returned (ends_with ("$" ++ pw) h)
       | None => Raised (OtherError "AttributeError")
       end;
     secure_filename := λ name, name |}.

Definition sample_env : env :=
  {| env_salt := "s4lt"; env_stamp := "20240101120000";
     env_iso := "2024-01-01T12:00:00" |}.

Definition admin_identity : session :=
  {| s_user_email := Some "admin@modabrasileira.com";
     s_is_admin := Some true |}.

Definition customer_identity : session :=
  {| s_user_email := Some "ana@example.com"; s_is_admin := Some false |}.

Definition anonymous : session :=
  {| s_user_email := None; s_is_admin := None |}.

(** No file exists, an administrator is logged in. *)
Definition bare_world : world :=
  {| files := ∅; sess := admin_identity; flashes := [] |}.

Definition world_with (us : list user) (ps : list product) (s : session)
  : world :=
  {| files := <[USERS_FILE := Json (users_doc us)]>
                (<[PRODUCTS_FILE := Json (products_doc ps)]> ∅);
     sess := s; flashes := [] |}.

Definition post (fields : list (string * list string))
    (image : option upload) : request :=
  {| method := POST; form := list_to_map fields; files_image := image |}.

Definition hat_image : upload :=
  {| up_filename := "hat.png"; up_content := "PNG" |}.

(** Every file of [w] replaced by bytes that are not JSON. *)
Definition garbled (w : world) : world :=
  {| files := (λ _, Raw "{") <$> files w; sess := sess w;
     flashes := flashes w |}.

Definition hat_request : request :=
  post [("name", ["Hat"]); ("description", ["Straw hat"]);
        ("price", ["19.5"]); ("category", ["hats"])] (Some hat_image).

Definition ana_request : request :=
  post [("email", ["ana@example.com"]); ("password", ["pw"])] None.

(** The worlds after a list of handler calls, each keeping the state the
    previous one left. *)
Definition then_run (w : world) (hs : list (M response)) : world :=
  fold_left (λ w h, snd (h w)) hs w.

(** ** Calls of the view functions and what they do to the stored data *)

(** One invocation of a view function. *)
Inductive call :=
  | CallIndex
  | CallProductDetail (product_id : Z)
  | CallRegister (r : request)
  | CallLogin (r : request)
  | CallLogout
  | CallAdminPanel
  | CallAddProduct (r : request)
  | CallEditProduct (product_id : Z) (r : request)
  | CallDeleteProduct (product_id : Z).

Definition invoke `{Werkzeug} (c : call) (e : env) : M response :=
  match c with
  | CallIndex => index e
  | CallProductDetail i => product_detail i
  | CallRegister r => register r e
  | CallLogin r => login r
  | CallLogout => logout
  | CallAdminPanel => admin_panel
  | CallAddProduct r => add_product r e
  | CallEditProduct i r => edit_product i r e
  | CallDeleteProduct i => delete_product i
  end.

(** A sequence of calls, each with what the environment hands it, run on
    the state the previous call left (also when that call raised). *)
Definition run_calls `{Werkzeug} (cs : list (call * env)) (w : world)
  : world :=
  fold_left (λ w ce, snd (invoke (fst ce) (snd ce) w)) cs w.

(** The session [login] establishes for a stored record. *)
Definition identity_of (u : user) : session :=
  {| s_user_email := Some (u_email u);
     s_is_admin := Some (u_is_admin u) |}.

(** The changes of the two stored collections a single call can make. *)
Inductive db_step (us : list user) (ps : list product)
  : list user → list product → Prop :=
  | db_same : db_step us ps us ps
  | db_register (u : user) :
      (∀ v, v ∈ us → u_email v ≠ u_email u) →
      u_email u ≠ "" →
      u_is_admin u = false →
      db_step us ps (us ++ [u]) ps
  | db_create (p : product) : db_step us ps us (create p ps)
  | db_edit (k : nat) (p p' : product) :
      ps !! k = Some p → p_id p' = p_id p →
      p_created_at p' = p_created_at p →
      db_step us ps us (<[k := p']> ps)
  | db_delete (i : Z) : db_step us ps us (delete i ps).

(** The login request of a call, if it is one. *)
Definition login_request (c : call) : option request :=
  match c with
  | CallLogin r => Some r
  | _ => None
  end.

(** The stored record [u] carries the email of the login request [r] and
    its hash accepts the password of [r]. *)
Definition accepts `{Werkzeug} (r : request) (u : user) : Prop :=
  Some (u_email u) = form_get r "email"
  ∧ check_password_hash (u_password u) (form_get r "password")
    = Returned true.

(** The session stays, is cleared, or becomes that of a stored record
    that accepts the login request. *)
Definition session_step `{Werkzeug} (lg : option request) (us : list user)
    (s s' : session) : Prop :=
  s' = s ∨ s' = anonymous
  ∨ ∃ r u, lg = Some r ∧ u ∈ us ∧ accepts r u ∧ s' = identity_of u.

(** What one call may do: a [db_step] on the collections; a change of the
    products, or of any file but the users file, only under an admin
    session; a [session_step]. *)
Definition effect `{Werkzeug} (lg : option request) (us : list user)
    (ps : list product) (w w' : world) : Prop :=
  ∃ us' ps',
    stored_users w' = Some us' ∧ stored_products w' = Some ps'
    ∧ db_step us ps us' ps'
    ∧ (¬ admin_session w →
         ps' = ps ∧ ∀ f, f ≠ USERS_FILE → files w' !! f = files w !! f)
    ∧ session_step lg us (sess w) (sess w').

(** A call that logs in with the credentials of an administrator among
    [us]. *)
Definition presents_admin_credentials `{Werkzeug} (us : list user)
    (c : call) : Prop :=
  ∃ r u, c = CallLogin r ∧ u ∈ us ∧ u_is_admin u = true ∧ accepts r u.


Definition boss : user :=
  {| u_email := "admin@modabrasileira.com";
     u_password := "s4lt$admin123"; u_is_admin := true |}.

Definition guess_request : request :=
  post [("email", ["admin@modabrasileira.com"]); ("password", ["guess"])]
    None.

Definition boss_request : request :=
  post [("email", ["admin@modabrasileira.com"]);
        ("password", ["admin123"])] None.

(** * Properties *)

(** ** [float] on sample inputs *)

Example float_29_90 : PyFloat.of_string "29.90" = Some (PyFloat.Finite false 2990 (-2)).
Proof. reflexivity. Qed.
Example float_neg5 : PyFloat.of_string "-5" = Some (PyFloat.Finite true 5 0).
Proof. reflexivity. Qed.
Example float_exp : PyFloat.of_string " +1_000.5e-3 " = Some (PyFloat.Finite false 10005 (-4)).
Proof. reflexivity. Qed.
Example float_dot : PyFloat.of_string "." = None.
Proof. reflexivity. Qed.
Example float_trail_dot : PyFloat.of_string "5.e2" = Some (PyFloat.Finite false 5 2).
Proof. reflexivity. Qed.
Example float_lead_dot : PyFloat.of_string ".5" = Some (PyFloat.Finite false 5 (-1)).
Proof. reflexivity. Qed.
Example float_us : PyFloat.of_string "1__0" = None.
Proof. reflexivity. Qed.
Example float_abc : PyFloat.of_string "abc" = None.
Proof. reflexivity. Qed.
Example float_empty : PyFloat.of_string "" = None.
Proof. reflexivity. Qed.
Example float_inf : PyFloat.of_string "-Infinity" = Some (PyFloat.Inf true).
Proof. reflexivity. Qed.
Example float_nan : PyFloat.of_string "NaN" = Some PyFloat.NaN.
Proof. reflexivity. Qed.
Example float_arabic : PyFloat.of_string "١٢" = Some (PyFloat.Finite false 12 0).
Proof. reflexivity. Qed.
Example float_fullwidth :
  PyFloat.of_string "１２.５" = Some (PyFloat.Finite false 125 (-1)).
Proof. reflexivity. Qed.
Example float_mixed : PyFloat.of_string "1_٢" = Some (PyFloat.Finite false 12 0).
Proof. reflexivity. Qed.
Example float_euro : PyFloat.of_string "12€" = None.
Proof. reflexivity. Qed.
Example float_overflow : PyFloat.of_string "-1e400" = Some (PyFloat.Inf true).
Proof. reflexivity. Qed.
Example float_largest :
  PyFloat.of_string "1.7976931348623158e308"
  = Some (PyFloat.Finite false 17976931348623158 292)
  ∧ PyFloat.of_string "1.7976931348623159e308" = Some (PyFloat.Inf false).
Proof. split; reflexivity. Qed.

(** ** Identifier assignment *)

Lemma max_default_cons x l d :
  max_default (x :: l) d = fold_left Z.max l x.
Proof. reflexivity. Qed.

Lemma fold_left_max_ge (l : list Z) (x : Z) :
  x <= fold_left Z.max l x ∧ ∀ y, y ∈ l → y <= fold_left Z.max l x.
Proof.
  revert x. induction l as [|a l IH]; intros x; simpl.
  - split; [lia|]. intros y Hy. by apply elem_of_nil in Hy.
  - destruct (IH (Z.max x a)) as [H1 H2]. split; [lia|].
    intros y Hy. apply elem_of_cons in Hy as [->|Hy]; [lia|auto].
Qed.

Lemma fold_left_max_elem (l : list Z) (x : Z) :
  fold_left Z.max l x ∈ x :: l.
Proof.
  revert x. induction l as [|a l IH]; intros x; simpl.
  - apply list_elem_of_here.
  - specialize (IH (Z.max x a)). apply elem_of_cons in IH as [Heq|Hin].
    + rewrite Heq. destruct (Z.max_spec x a) as [[_ ->]|[_ ->]].
      * apply list_elem_of_further, list_elem_of_here.
      * apply list_elem_of_here.
    + by do 2 apply list_elem_of_further.
Qed.

Lemma max_default_ge (l : list Z) (d y : Z) :
  y ∈ l → y <= max_default l d.
Proof.
  destruct l as [|x l]; intros Hy; [by apply elem_of_nil in Hy|].
  rewrite max_default_cons. destruct (fold_left_max_ge l x) as [H1 H2].
  apply elem_of_cons in Hy as [->|Hy]; auto.
Qed.

Lemma max_default_elem (l : list Z) (d : Z) :
  l ≠ [] → max_default l d ∈ l.
Proof.
  destruct l as [|x l]; [done|]. intros _. apply fold_left_max_elem.
Qed.

(** The maximum is determined by membership and the upper bound. *)
Lemma max_default_unique (l : list Z) (d m : Z) :
  m ∈ l → (∀ y, y ∈ l → y <= m) → max_default l d = m.
Proof.
  intros Hm Hub.
  assert (l ≠ []) as Hne by (intros ->; by apply elem_of_nil in Hm).
  pose proof (max_default_elem l d Hne) as Hin.
  pose proof (max_default_ge l d m Hm). specialize (Hub _ Hin). lia.
Qed.

Lemma new_id_gt (products : list product) (p : product) :
  p ∈ products → p_id p < new_id products.
Proof.
  intros Hp. unfold new_id.
  pose proof (max_default_ge (p_id <$> products) 0 (p_id p)
                (list_elem_of_fmap_2 p_id _ _ Hp)). lia.
Qed.

Lemma new_id_fresh (products : list product) :
  new_id products ∉ (p_id <$> products).
Proof.
  intros Hin. apply list_elem_of_fmap in Hin as (p & Heq & Hp).
  pose proof (new_id_gt _ _ Hp). lia.
Qed.

Lemma max_default_create (p : product) (products : list product) :
  max_default (p_id <$> create p products) 0 = new_id products.
Proof.
  apply max_default_unique.
  - unfold create. rewrite fmap_app. apply elem_of_app. right.
    apply list_elem_of_singleton. reflexivity.
  - intros y Hy. unfold create in Hy. rewrite fmap_app in Hy.
    apply elem_of_app in Hy as [Hy|Hy].
    + apply list_elem_of_fmap in Hy as (q & -> & Hq).
      pose proof (new_id_gt _ _ Hq). lia.
    + apply list_elem_of_singleton in Hy. subst y. simpl. lia.
Qed.

Lemma elem_of_ids_delete (i j : Z) (products : list product) :
  j ∈ (p_id <$> delete i products) ↔ j ≠ i ∧ j ∈ (p_id <$> products).
Proof.
  unfold delete. rewrite !list_elem_of_fmap. split.
  - intros (q & -> & Hq). apply list_elem_of_filter in Hq as [Hne Hq].
    split; [done|]. by exists q.
  - intros (Hne & q & -> & Hq). exists q. split; [done|].
    by apply list_elem_of_filter.
Qed.

Lemma max_default_delete (i : Z) (products : list product) :
  (i ∈ (p_id <$> products) → i < max_default (p_id <$> products) 0) →
  max_default (p_id <$> delete i products) 0
  = max_default (p_id <$> products) 0.
Proof.
  intros Hspare.
  destruct (decide (p_id <$> products = [])) as [Hnil|Hne].
  - apply fmap_nil_inv in Hnil. subst products. reflexivity.
  - pose proof (max_default_elem _ 0 Hne) as Hmax.
    apply max_default_unique.
    + apply elem_of_ids_delete. split; [|done].
      intros Heq. rewrite Heq in Hmax at 1. specialize (Hspare Hmax). lia.
    + intros y Hy. apply elem_of_ids_delete in Hy as [_ Hy].
      by apply max_default_ge.
Qed.

Lemma NoDup_ids_create (p : product) (products : list product) :
  NoDup (p_id <$> products) → NoDup (p_id <$> create p products).
Proof.
  intros Hnd. unfold create. rewrite fmap_app. apply NoDup_app.
  split; [done|]. split.
  - intros x Hx Hx'. apply list_elem_of_singleton in Hx'. subst x.
    by apply new_id_fresh in Hx.
  - apply NoDup_singleton.
Qed.

Lemma NoDup_ids_delete (i : Z) (products : list product) :
  NoDup (p_id <$> products) → NoDup (p_id <$> delete i products).
Proof.
  intros Hnd. eapply sublist_NoDup; [exact Hnd|].
  apply fmap_sublist, sublist_filter.
Qed.

Lemma NoDup_ids_run (ops : list op) (products : list product) :
  NoDup (p_id <$> products) → NoDup (p_id <$> run ops products).
Proof.
  revert products. induction ops as [|o ops IH]; intros ps Hnd; [done|].
  simpl. apply IH. destruct o; simpl.
  - by apply NoDup_ids_create.
  - by apply NoDup_ids_delete.
Qed.

Lemma assigned_app (pre post : list op) (products : list product) :
  assigned (pre ++ post) products
  = (assigned pre products ++ assigned post (run pre products))%list.
Proof.
  revert products. induction pre as [|o pre IH]; intros ps; [done|].
  destruct o; simpl; rewrite IH; reflexivity.
Qed.

Lemma assigned_increasing (ops : list op) (products : list product) :
  spares_max ops products →
  StronglySorted Z.lt (assigned ops products)
  ∧ Forall (λ i, max_default (p_id <$> products) 0 < i)
      (assigned ops products).
Proof.
  revert products. induction ops as [|o ops IH]; intros ps Hs.
  - split; constructor.
  - destruct o as [p|i]; simpl in *.
    + destruct (IH _ Hs) as [Hsorted Hall].
      rewrite max_default_create in Hall. split.
      * constructor; [exact Hsorted|exact Hall].
      * constructor; [unfold new_id; lia|].
        eapply Forall_impl; [exact Hall|]. intros x Hx. simpl in Hx.
        unfold new_id in Hx. lia.
    + destruct Hs as [Hspare Hs]. destruct (IH _ Hs) as [Hsorted Hall].
      rewrite max_default_delete in Hall by exact Hspare. by split.
Qed.

(** ** The admin gate *)

Lemma admin_required_unfold (f : M response) (w : world) :
  admin_required f w
  = if negb (bool_decide (is_Some (s_user_email (sess w))))
       || negb (bool_decide (s_is_admin (sess w) = Some true))
    then forbidden w else f w.
Proof.
  unfold admin_required, bind, get_session. simpl.
  destruct (negb _ || negb _); reflexivity.
Qed.

Lemma admin_required_pass (f : M response) (w : world) :
  admin_session w → admin_required f w = f w.
Proof.
  intros [Hid Hadm]. rewrite admin_required_unfold.
  rewrite (bool_decide_eq_true_2 _ Hid), (bool_decide_eq_true_2 _ Hadm).
  reflexivity.
Qed.

Lemma admin_required_reject (f : M response) (w : world) :
  ¬ admin_session w → admin_required f w = forbidden w.
Proof.
  intros Hno. rewrite admin_required_unfold.
  destruct (decide (is_Some (s_user_email (sess w)))) as [Hid|Hid].
  - destruct (decide (s_is_admin (sess w) = Some true)) as [Hadm|Hadm].
    + destruct Hno. by split.
    + rewrite (bool_decide_eq_false_2 _ Hadm), orb_true_r. reflexivity.
  - rewrite (bool_decide_eq_false_2 _ Hid). reflexivity.
Qed.

(** C5: [admin_required] answers a request without identity and a request
    whose identity is not an administrator with the same redirect to the
    landing page and the same notice, whatever the wrapped handler is and
    without touching any file or the session; with an identity whose
    admin flag is set it runs the wrapped handler. *)
Theorem require_admin_gate (f : M response) (w : world) :
  (s_user_email (sess w) = None → admin_required f w = forbidden w)
  ∧ (s_is_admin (sess w) ≠ Some true → admin_required f w = forbidden w)
  ∧ (admin_session w → admin_required f w = f w)
  ∧ fst (forbidden w) = Returned (Redirect "index")
  ∧ files (snd (forbidden w)) = files w
  ∧ sess (snd (forbidden w)) = sess w
  ∧ flashes (snd (forbidden w))
    = (flashes w ++ [("Acesso negado. Apenas administradores.", "error")])%list.
Proof.
  split; [|split; [|split]].
  - intros Hnone. apply admin_required_reject. intros [Hid _].
    rewrite Hnone in Hid. by destruct Hid.
  - intros Hno. apply admin_required_reject. intros [_ Hadm]. done.
  - apply admin_required_pass.
  - repeat split.
Qed.

Lemma require_admin_gate_witness :
  let f := delete_product_view 1 in
  let ps := [with_id 1 sample_product] in
  admin_required f (world_with [] ps anonymous)
  = forbidden (world_with [] ps anonymous)
  ∧ admin_required f (world_with [] ps customer_identity)
    = forbidden (world_with [] ps customer_identity)
  ∧ admin_required f (world_with [] ps admin_identity)
    = f (world_with [] ps admin_identity).
Proof.
  intros f ps. split; [|split].
  - destruct (require_admin_gate f (world_with [] ps anonymous))
      as (Hnone & _). apply Hnone. reflexivity.
  - destruct (require_admin_gate f (world_with [] ps customer_identity))
      as (_ & Hno & _). apply Hno. simpl. discriminate.
  - destruct (require_admin_gate f (world_with [] ps admin_identity))
      as (_ & _ & Hyes & _). apply Hyes.
    split; [by eexists|reflexivity].
Defined.

(** ** Running the monad *)

Lemma bind_returned {A B} (c : M A) (k : A → M B) (w w' : world) (a : A) :
  c w = (Returned a, w') → bind c k w = k a w'.
Proof. intros Hc. unfold bind. rewrite Hc. reflexivity. Qed.

Lemma bind_raised {A B} (c : M A) (k : A → M B) (w w' : world) (e : exn) :
  c w = (Raised e, w') → bind c k w = (Raised e, w').
Proof. intros Hc. unfold bind. rewrite Hc. reflexivity. Qed.

(** ** Reading and writing the collections *)

Lemma load_json_Json (f : string) (d : document) (w : world) :
  files w !! f = Some (Json d) → load_json f w = (Returned d, w).
Proof. intros Hf. unfold load_json. rewrite Hf. reflexivity. Qed.

Lemma load_json_missing (f : string) (w : world) :
  files w !! f = None → load_json f w = (Raised FileNotFoundError, w).
Proof. intros Hf. unfold load_json. rewrite Hf. reflexivity. Qed.

Lemma load_json_Raw (f b : string) (w : world) :
  files w !! f = Some (Raw b) → PyUtf8.valid b = true →
  load_json f w = (Raised JSONDecodeError, w).
Proof. intros Hf Hv. unfold load_json. rewrite Hf, Hv. reflexivity. Qed.

Lemma load_json_undecodable (f b : string) (w : world) :
  files w !! f = Some (Raw b) → PyUtf8.valid b = false →
  load_json f w = (Raised UnicodeDecodeError, w).
Proof. intros Hf Hv. unfold load_json. rewrite Hf, Hv. reflexivity. Qed.

Lemma stored_products_inv (w : world) (ps : list product) :
  stored_products w = Some ps →
  ∃ d, files w !! PRODUCTS_FILE = Some (Json d) ∧ get_products d = ps.
Proof.
  unfold stored_products. destruct (files w !! PRODUCTS_FILE) as [[d|b]|];
    intros Heq; try discriminate.
  exists d. split; [reflexivity|congruence].
Qed.

Lemma stored_users_inv (w : world) (us : list user) :
  stored_users w = Some us →
  ∃ d, files w !! USERS_FILE = Some (Json d) ∧ get_users d = us.
Proof.
  unfold stored_users. destruct (files w !! USERS_FILE) as [[d|b]|];
    intros Heq; try discriminate.
  exists d. split; [reflexivity|congruence].
Qed.

Lemma stored_products_put (ps : list product) (w : world) :
  stored_products (put_file PRODUCTS_FILE (Json (products_doc ps)) w)
  = Some ps.
Proof.
  unfold stored_products, put_file. simpl.
  rewrite lookup_insert_eq. reflexivity.
Qed.

Lemma stored_users_put (us : list user) (w : world) :
  stored_users (put_file USERS_FILE (Json (users_doc us)) w) = Some us.
Proof.
  unfold stored_users, put_file. simpl.
  rewrite lookup_insert_eq. reflexivity.
Qed.

Lemma stored_products_put_other (f : string) (x : file) (w : world) :
  f ≠ PRODUCTS_FILE →
  stored_products (put_file f x w) = stored_products w.
Proof.
  intros Hne. unfold stored_products, put_file. simpl.
  rewrite lookup_insert_ne by exact Hne. reflexivity.
Qed.

Lemma upload_path_not_products (name : string) :
  UPLOAD_FOLDER ++ "/" ++ name ≠ PRODUCTS_FILE.
Proof. discriminate. Qed.

(** ** Delete and read back *)

Lemma find_product_delete_same (i : Z) (ps : list product) :
  find_product i (delete i ps) = None.
Proof.
  unfold find_product. apply list_find_None. apply Forall_forall.
  intros p Hp. apply list_elem_of_filter in Hp as [Hne _]. exact Hne.
Qed.

Lemma snd_shift {A} (o : option (nat * A)) :
  snd <$> (prod_map S id <$> o) = snd <$> o.
Proof. destruct o as [[k a]|]; reflexivity. Qed.

Lemma find_product_delete_other (i j : Z) (ps : list product) :
  j ≠ i →
  snd <$> find_product j (delete i ps) = snd <$> find_product j ps.
Proof.
  intros Hne. unfold find_product, delete.
  induction ps as [|p ps IH]; [reflexivity|].
  rewrite filter_cons. destruct (decide (p_id p ≠ i)) as [Hk|Hk].
  - simpl. destruct (decide (p_id p = j)); [reflexivity|].
    rewrite !snd_shift. exact IH.
  - rewrite IH. simpl. destruct (decide (p_id p = j)) as [Hj|Hj].
    + exfalso. apply Hk. congruence.
    + rewrite snd_shift. reflexivity.
Qed.

Lemma delete_absent (i : Z) (ps : list product) :
  i ∉ (p_id <$> ps) → delete i ps = ps.
Proof.
  intros Hno. unfold delete. induction ps as [|p ps IH]; [reflexivity|].
  rewrite filter_cons. rewrite fmap_cons in Hno.
  apply not_elem_of_cons in Hno as [Hne Hno].
  destruct (decide (p_id p ≠ i)) as [_|Hk].
  - f_equal. by apply IH.
  - exfalso. apply Hk. congruence.
Qed.

Lemma delete_idemp (i : Z) (ps : list product) :
  delete i (delete i ps) = delete i ps.
Proof.
  apply delete_absent. intros Hin.
  apply elem_of_ids_delete in Hin as [Hne _]. by apply Hne.
Qed.

Lemma delete_product_view_run (i : Z) (w : world) (ps : list product) :
  stored_products w = Some ps →
  delete_product_view i w
  = (Returned (Redirect "admin_panel"),
     add_flash "Produto deletado com sucesso!" "success"
       (put_file PRODUCTS_FILE (Json (products_doc (delete i ps))) w)).
Proof.
  intros Hst. apply stored_products_inv in Hst as (d & Hf & <-).
  unfold delete_product_view, bind.
  rewrite (load_json_Json _ _ _ Hf). reflexivity.
Qed.

Lemma product_detail_run (i : Z) (w : world) (ps : list product) :
  stored_products w = Some ps →
  product_detail i w
  = match find_product i ps with
    | None => (Returned (Redirect "index"),
               add_flash "Produto não encontrado" "error" w)
    | Some (_, p) =>
        (Returned (Render "product_detail.html" (WithProduct p)), w)
    end.
Proof.
  intros Hst. apply stored_products_inv in Hst as (d & Hf & <-).
  unfold product_detail, try_except, bind.
  rewrite (load_json_Json _ _ _ Hf).
  destruct (find_product i (get_products d)) as [[k p]|]; reflexivity.
Qed.

Lemma admin_session_sess (w w' : world) :
  sess w' = sess w → admin_session w → admin_session w'.
Proof. unfold admin_session. intros ->. done. Qed.

(** C8: deleting as an administrator rewrites the collection without the
    records of that id and reports success; reading that id afterwards
    finds nothing; when no record matches the collection is unchanged and
    success is still reported; deleting a second time changes no file;
    the records of every other id stay, in their order, and are read back
    as before. *)
Theorem delete_then_get (i : Z) (w : world) (ps : list product) :
  admin_session w →
  stored_products w = Some ps →
  let w1 := snd (delete_product i w) in
  fst (delete_product i w) = Returned (Redirect "admin_panel")
  ∧ flashes w1
    = (flashes w ++ [("Produto deletado com sucesso!", "success")])%list
  ∧ stored_products w1 = Some (delete i ps)
  ∧ product_detail i w1
    = (Returned (Redirect "index"),
       add_flash "Produto não encontrado" "error" w1)
  ∧ (i ∉ (p_id <$> ps) → stored_products w1 = Some ps)
  ∧ fst (delete_product i w1) = Returned (Redirect "admin_panel")
  ∧ files (snd (delete_product i w1)) = files w1
  ∧ (∀ p, p ∈ delete i ps ↔ p ∈ ps ∧ p_id p ≠ i)
  ∧ delete i ps `sublist_of` ps
  ∧ (∀ j, j ≠ i →
       snd <$> find_product j (delete i ps) = snd <$> find_product j ps).
Proof.
  intros Hadm Hst w1.
  assert (delete_product i w
          = (Returned (Redirect "admin_panel"),
             add_flash "Produto deletado com sucesso!" "success"
               (put_file PRODUCTS_FILE (Json (products_doc (delete i ps))) w)))
    as Hrun.
  { unfold delete_product. rewrite admin_required_pass by exact Hadm.
    by apply delete_product_view_run. }
  assert (stored_products w1 = Some (delete i ps)) as Hst1.
  { subst w1. rewrite Hrun. simpl. apply stored_products_put. }
  assert (admin_session w1) as Hadm1.
  { eapply admin_session_sess; [|exact Hadm]. subst w1. by rewrite Hrun. }
  assert (delete_product i w1
          = (Returned (Redirect "admin_panel"),
             add_flash "Produto deletado com sucesso!" "success"
               (put_file PRODUCTS_FILE
                  (Json (products_doc (delete i (delete i ps)))) w1)))
    as Hrun1.
  { unfold delete_product. rewrite admin_required_pass by exact Hadm1.
    by apply delete_product_view_run. }
  split; [by rewrite Hrun|]. split; [by subst w1; rewrite Hrun|].
  split; [exact Hst1|]. split.
  { rewrite (product_detail_run i w1 _ Hst1), find_product_delete_same.
    reflexivity. }
  split; [intros Hno; by rewrite Hst1, delete_absent|].
  split; [by rewrite Hrun1|]. split.
  { rewrite Hrun1, delete_idemp. simpl. subst w1. rewrite Hrun. simpl.
    apply insert_insert_eq. }
  split.
  { intros p. unfold delete. rewrite list_elem_of_filter. tauto. }
  split; [apply sublist_filter|].
  intros j Hj. by apply find_product_delete_other.
Qed.

Lemma delete_then_get_witness :
  let w := world_with [] [with_id 1 sample_product; with_id 2 sample_product]
             admin_identity in
  stored_products (snd (delete_product 1 w))
  = Some [with_id 2 sample_product]
  ∧ product_detail 1 (snd (delete_product 1 w))
    = (Returned (Redirect "index"),
       add_flash "Produto não encontrado" "error" (snd (delete_product 1 w))).
Proof.
  intros w.
  assert (admin_session w) as Hadm by (split; [by eexists|reflexivity]).
  assert (stored_products w
          = Some [with_id 1 sample_product; with_id 2 sample_product])
    as Hst by reflexivity.
  destruct (delete_then_get 1 w _ Hadm Hst) as (_ & _ & Hst1 & Hget & _).
  split; [exact Hst1|exact Hget].
Defined.

(** ** Registration *)

Lemma truthy_Some (o : option string) :
  truthy o = true ↔ ∃ s, o = Some s ∧ s ≠ "".
Proof.
  destruct o as [s|]; simpl.
  - rewrite negb_true_iff, String.eqb_neq. split.
    + intros Hne. by exists s.
    + intros (s' & [= <-] & Hne). exact Hne.
  - split; [discriminate|]. intros (s & Hs & _). discriminate.
Qed.

Lemma email_taken_iff (email : option string) (us : list user) :
  existsb (λ u, bool_decide (Some (u_email u) = email)) us = true
  ↔ ∃ u, u ∈ us ∧ Some (u_email u) = email.
Proof.
  rewrite existsb_exists. split.
  - intros (u & Hin & Hu). exists u. split; [by apply list_elem_of_In|].
    by apply bool_decide_eq_true_1 in Hu.
  - intros (u & Hin & Hu). exists u. split; [by apply list_elem_of_In|].
    by apply bool_decide_eq_true_2.
Qed.

Section Register.
Context `{Werkzeug}.

Lemma register_incomplete (r : request) (e : env) (w : world) :
  method r = POST →
  truthy (form_get r "email") = false
  ∨ truthy (form_get r "password") = false →
  register r e w
  = (Returned (Redirect "register"),
     add_flash "Preencha todos os campos" "error" w).
Proof.
  intros Hm Hempty. unfold register. rewrite Hm.
  destruct Hempty as [-> | ->]; [|rewrite orb_true_r]; reflexivity.
Qed.

Lemma register_duplicate (r : request) (e : env) (w : world)
    (us : list user) :
  method r = POST →
  truthy (form_get r "email") = true →
  truthy (form_get r "password") = true →
  stored_users w = Some us →
  (∃ u, u ∈ us ∧ Some (u_email u) = form_get r "email") →
  register r e w
  = (Returned (Redirect "register"),
     add_flash "Email já cadastrado" "error" w).
Proof.
  intros Hm He Hp Hst Hdup. apply stored_users_inv in Hst as (d & Hf & <-).
  apply email_taken_iff in Hdup.
  unfold register. rewrite Hm, He, Hp. simpl. unfold bind at 1.
  rewrite (load_json_Json _ _ _ Hf). rewrite Hdup. reflexivity.
Qed.

Lemma register_fresh (r : request) (e : env) (w : world)
    (us : list user) (em pw : string) :
  method r = POST →
  form_get r "email" = Some em → em ≠ "" →
  form_get r "password" = Some pw → pw ≠ "" →
  stored_users w = Some us →
  (∀ u, u ∈ us → u_email u ≠ em) →
  register r e w
  = (Returned (Redirect "login"),
     add_flash "Cadastro realizado com sucesso!" "success"
       (put_file USERS_FILE
          (Json (users_doc
                   (us ++ [ {| u_email := em;
                               u_password :=
                                 generate_password_hash (env_salt e) pw;
                               u_is_admin := false |} ])))
          w)).
Proof.
  intros Hm He Hne Hp Hnp Hst Hfresh.
  apply stored_users_inv in Hst as (d & Hf & <-).
  assert (existsb (λ u, bool_decide (Some (u_email u) = form_get r "email"))
            (get_users d) = false) as Hno.
  { apply not_true_is_false. intros Hex.
    apply email_taken_iff in Hex as (u & Hin & Hu).
    rewrite He in Hu. injection Hu as Hu. by apply (Hfresh u Hin). }
  unfold register. rewrite Hm.
  assert (truthy (form_get r "email") = true) as ->
    by (apply truthy_Some; eauto).
  assert (truthy (form_get r "password") = true) as ->
    by (apply truthy_Some; eauto).
  simpl. unfold bind at 1. rewrite (load_json_Json _ _ _ Hf).
  rewrite Hno, He, Hp. reflexivity.
Qed.

End Register.

(** C6: a registration with an empty or missing email or password is
    answered with a validation notice; one whose email equals, character
    for character, the email of a stored record is answered with the
    duplicate-email notice; in both cases no file changes.  Otherwise a
    record with that email, the hash of the password and [is_admin = False]
    is appended to the stored users and nothing else is written. *)
Theorem register_contract `{Werkzeug} (r : request) (e : env) (w : world) :
  method r = POST →
  let email := form_get r "email" in
  let password := form_get r "password" in
  let w' := snd (register r e w) in
  (truthy email = false ∨ truthy password = false →
     register r e w
     = (Returned (Redirect "register"),
        add_flash "Preencha todos os campos" "error" w)
     ∧ files w' = files w)
  ∧ (∀ us, stored_users w = Some us →
       truthy email = true → truthy password = true →
       (∃ u, u ∈ us ∧ Some (u_email u) = email) →
       register r e w
       = (Returned (Redirect "register"),
          add_flash "Email já cadastrado" "error" w)
       ∧ files w' = files w
       ∧ stored_users w' = Some us)
  ∧ (∀ us em pw, stored_users w = Some us →
       email = Some em → em ≠ "" → password = Some pw → pw ≠ "" →
       (∀ u, u ∈ us → u_email u ≠ em) →
       fst (register r e w) = Returned (Redirect "login")
       ∧ stored_users w'
         = Some (us ++ [ {| u_email := em;
                            u_password :=
                              generate_password_hash (env_salt e) pw;
                            u_is_admin := false |} ])%list
       ∧ (∀ f, f ≠ USERS_FILE → files w' !! f = files w !! f)
       ∧ sess w' = sess w).
Proof.
  intros Hm email password w'. split; [|split].
  - intros Hempty. subst w'.
    rewrite (register_incomplete r e w Hm Hempty). by split.
  - intros us Hst He Hp Hdup. subst w'.
    rewrite (register_duplicate r e w us Hm He Hp Hst Hdup).
    split; [reflexivity|]. split; [reflexivity|exact Hst].
  - intros us em pw Hst He Hne Hp Hnp Hfresh. subst w'.
    rewrite (register_fresh r e w us em pw Hm He Hne Hp Hnp Hst Hfresh).
    split; [reflexivity|]. split; [apply stored_users_put|].
    split; [|reflexivity].
    intros f Hf. simpl. by rewrite lookup_insert_ne.
Qed.

Lemma register_contract_witness :
  let W := sample_werkzeug in
  let stored := [ {| u_email := "ana@example.com"; u_password := "x$pw";
                     u_is_admin := false |} ] in
  let w := world_with stored [] anonymous in
  let again := post [("email", ["ana@example.com"]); ("password", ["pw2"])]
                 None in
  let other := post [("email", ["Ana@example.com"]); ("password", ["pw2"])]
                 None in
  stored_users (snd (register again sample_env w)) = Some stored
  ∧ stored_users (snd (register other sample_env w))
    = Some (stored ++ [ {| u_email := "Ana@example.com";
                           u_password := "s4lt$pw2";
                           u_is_admin := false |} ])%list.
Proof.
  intros W stored w again other. split.
  - destruct (register_contract again sample_env w eq_refl)
      as (_ & Hdup & _).
    apply (Hdup stored); try reflexivity.
    eexists. split; [apply list_elem_of_here|reflexivity].
  - destruct (register_contract other sample_env w eq_refl)
      as (_ & _ & Hnew).
    apply (Hnew stored "Ana@example.com" "pw2");
      try reflexivity; try discriminate.
    intros u Hu. apply list_elem_of_singleton in Hu. subst u. discriminate.
Defined.

(** ** Login *)

Lemma find_user_Some (email : option string) (us : list user) (u : user) :
  find_user email us = Some u → u ∈ us ∧ Some (u_email u) = email.
Proof.
  intros Hf. apply find_some in Hf as [Hin Hu]. split.
  - by apply list_elem_of_In.
  - by apply bool_decide_eq_true_1 in Hu.
Qed.

Lemma find_user_None (email : option string) (us : list user) :
  find_user email us = None ↔ ∀ u, u ∈ us → Some (u_email u) ≠ email.
Proof.
  split.
  - intros Hf u Hin Heq. apply list_elem_of_In in Hin.
    pose proof (find_none _ _ Hf u Hin) as Hu. simpl in Hu.
    by rewrite (bool_decide_eq_true_2 _ Heq) in Hu.
  - intros Hno. destruct (find_user email us) as [u|] eqn:Hf; [|reflexivity].
    apply find_user_Some in Hf as [Hin Heq]. by destruct (Hno u Hin).
Qed.

Lemma find_user_unique (email : option string) (us : list user) (u : user) :
  NoDup (u_email <$> us) → u ∈ us → Some (u_email u) = email →
  find_user email us = Some u.
Proof.
  intros Hnd Hin Heq. induction us as [|v us IH].
  - by apply elem_of_nil in Hin.
  - rewrite fmap_cons in Hnd. apply NoDup_cons in Hnd as [Hv Hnd].
    unfold find_user. simpl.
    destruct (decide (Some (u_email v) = email)) as [Hveq|Hvne].
    + rewrite (bool_decide_eq_true_2 _ Hveq).
      apply elem_of_cons in Hin as [->|Hin]; [reflexivity|].
      exfalso. apply Hv. apply list_elem_of_fmap. exists u.
      split; [congruence|exact Hin].
    + rewrite (bool_decide_eq_false_2 _ Hvne).
      apply elem_of_cons in Hin as [->|Hin]; [done|]. by apply IH.
Qed.

Section Login.
Context `{Werkzeug}.

Lemma login_run (r : request) (w : world) (us : list user) :
  method r = POST →
  stored_users w = Some us →
  login r w
  = match find_user (form_get r "email") us with
    | Some u =>
        match check_password_hash (u_password u) (form_get r "password") with
        | Returned true => logged_in (form_get r "email") u w
        | Returned false => invalid_credentials w
        | Raised ex => (Raised ex, w)
        end
    | None => invalid_credentials w
    end.
Proof.
  intros Hm Hst. apply stored_users_inv in Hst as (d & Hf & <-).
  unfold login. rewrite Hm. unfold bind at 1.
  rewrite (load_json_Json _ _ _ Hf).
  destruct (find_user _ _) as [u|]; [|reflexivity].
  unfold bind at 1, of_outcome.
  destruct (check_password_hash _ _) as [[|]|ex]; reflexivity.
Qed.

End Login.

(** Where [check_password_hash] gives a verdict: a login whose email is
    that of a stored record and whose password the stored hash accepts
    succeeds and puts that record's [is_admin] flag in the session; a
    login with a password the hash rejects and a login with an email no
    record has get the same answer, the same notice, and leave files and
    session as they were. *)
Theorem authenticate_uniform `{Werkzeug} (r r' : request) (w : world)
    (us : list user) :
  method r = POST → method r' = POST →
  stored_users w = Some us →
  let email := form_get r "email" in
  let password := form_get r "password" in
  (∀ u, find_user email us = Some u →
        check_password_hash (u_password u) password = Returned true →
        login r w = logged_in email u w
        ∧ s_is_admin (sess (snd (login r w))) = Some (u_is_admin u)
        ∧ s_user_email (sess (snd (login r w))) = Some (u_email u))
  ∧ (∀ u, NoDup (u_email <$> us) → u ∈ us → Some (u_email u) = email →
          find_user email us = Some u)
  ∧ (∀ u, find_user email us = Some u →
          check_password_hash (u_password u) password = Returned false →
          login r w = invalid_credentials w)
  ∧ ((∀ u, u ∈ us → Some (u_email u) ≠ form_get r' "email") →
       login r' w = invalid_credentials w)
  ∧ (∀ u, find_user email us = Some u →
          check_password_hash (u_password u) password = Returned false →
          (∀ v, v ∈ us → Some (u_email v) ≠ form_get r' "email") →
          login r w = login r' w)
  ∧ files (snd (invalid_credentials w)) = files w
  ∧ sess (snd (invalid_credentials w)) = sess w.
Proof.
  intros Hm Hm' Hst email password.
  pose proof (login_run r w us Hm Hst) as Hr.
  pose proof (login_run r' w us Hm' Hst) as Hr'.
  assert (∀ u, find_user email us = Some u →
            check_password_hash (u_password u) password = Returned false →
            login r w = invalid_credentials w) as Hwrong.
  { intros u Hf Hc. rewrite Hr. fold email password. by rewrite Hf, Hc. }
  assert ((∀ u, u ∈ us → Some (u_email u) ≠ form_get r' "email") →
          login r' w = invalid_credentials w) as Hunknown.
  { intros Hno. apply find_user_None in Hno. by rewrite Hr', Hno. }
  split; [|split; [|split; [|split; [|split]]]].
  - intros u Hf Hc. rewrite Hr. fold email password. rewrite Hf, Hc.
    split; [reflexivity|]. split; [reflexivity|]. simpl.
    symmetry. by apply find_user_Some in Hf as [_ Hf].
  - intros u Hnd Hin Heq. by apply find_user_unique.
  - exact Hwrong.
  - exact Hunknown.
  - intros u Hf Hc Hno. by rewrite (Hwrong u Hf Hc), (Hunknown Hno).
  - split; reflexivity.
Qed.

Lemma authenticate_uniform_witness :
  let W := sample_werkzeug in
  let boss := {| u_email := "admin@modabrasileira.com";
                 u_password := "s4lt$admin123"; u_is_admin := true |} in
  let w := world_with [boss] [] anonymous in
  let good := post [("email", ["admin@modabrasileira.com"]);
                    ("password", ["admin123"])] None in
  let wrong := post [("email", ["admin@modabrasileira.com"]);
                     ("password", ["guess"])] None in
  let unknown := post [("email", ["nobody@example.com"]);
                       ("password", ["admin123"])] None in
  s_is_admin (sess (snd (login good w))) = Some true
  ∧ login wrong w = login unknown w.
Proof.
  intros W boss w good wrong unknown. split.
  - destruct (authenticate_uniform good unknown w [boss]
                eq_refl eq_refl eq_refl) as (Hok & _).
    destruct (Hok boss eq_refl eq_refl) as (_ & Hflag & _). exact Hflag.
  - destruct (authenticate_uniform wrong unknown w [boss]
                eq_refl eq_refl eq_refl) as (_ & _ & _ & _ & Hsame & _).
    apply (Hsame boss eq_refl eq_refl).
    intros v Hv. apply list_elem_of_singleton in Hv. subst v. discriminate.
Defined.

(** C4 at its failing input: a login without password field.  [login]
    hands the missing password to [check_password_hash] when a record
    with the email is stored, and whatever the check raises then escapes
    with nothing flashed; for an email no record has, the same request
    gets the invalid-credentials redirect.  The two causes of failure
    are told apart. *)
Theorem login_missing_password_distinguishes `{Werkzeug}
    (known unknown : request) (w : world) (us : list user) (u : user)
    (ex : exn) :
  method known = POST → method unknown = POST →
  stored_users w = Some us →
  form_get known "password" = None →
  form_get unknown "password" = None →
  find_user (form_get known "email") us = Some u →
  find_user (form_get unknown "email") us = None →
  check_password_hash (u_password u) None = Raised ex →
  login known w = (Raised ex, w)
  ∧ login unknown w = invalid_credentials w
  ∧ login known w ≠ login unknown w.
Proof.
  intros Hm Hm' Hus Hpw Hpw' Hfind Hfind' Hcheck.
  assert (login known w = (Raised ex, w)) as Hknown.
  { rewrite (login_run known w us Hm Hus), Hfind, Hpw. by rewrite Hcheck. }
  assert (login unknown w = invalid_credentials w) as Hunknown.
  { by rewrite (login_run unknown w us Hm' Hus), Hfind'. }
  split; [exact Hknown|]. split; [exact Hunknown|].
  rewrite Hknown, Hunknown. unfold invalid_credentials. intros Heq.
  discriminate.
Qed.

Lemma login_missing_password_distinguishes_witness :
  let W := sample_werkzeug in
  let admin := {| u_email := "admin@modabrasileira.com";
                  u_password := "s4lt$admin123"; u_is_admin := true |} in
  let w := world_with [admin] [] anonymous in
  let known := post [("email", ["admin@modabrasileira.com"])] None in
  let unknown := post [("email", ["nobody@example.com"])] None in
  login known w = (Raised (OtherError "AttributeError"), w)
  ∧ login unknown w = invalid_credentials w
  ∧ login known w ≠ login unknown w.
Proof.
  intros W admin w known unknown.
  exact (login_missing_password_distinguishes known unknown w [admin] admin
           (OtherError "AttributeError")
           eq_refl eq_refl eq_refl eq_refl eq_refl eq_refl eq_refl eq_refl).
Defined.

(** ** Creating a product *)

Section AddProduct.
Context `{Werkzeug}.

Lemma save_image_run (img : upload) (e : env) (w : world) :
  save_image img e w
  = (Returned (stored_name img e),
     put_file (UPLOAD_FOLDER ++ "/" ++ stored_name img e)
       (Raw (up_content img)) w).
Proof. reflexivity. Qed.

Lemma stored_products_save_image (img : upload) (e : env) (w : world) :
  stored_products (snd (save_image img e w)) = stored_products w.
Proof.
  rewrite save_image_run. simpl.
  apply stored_products_put_other, upload_path_not_products.
Qed.

Lemma add_product_view_incomplete (r : request) (e : env) (w : world) :
  method r = POST → all_present r = false →
  add_product_view r e w
  = (Returned (Redirect "add_product"),
     add_flash "Preencha todos os campos" "error" w).
Proof.
  intros Hm Hall. unfold add_product_view. rewrite Hm.
  fold (all_present r). rewrite Hall. reflexivity.
Qed.

Lemma add_product_view_complete (r : request) (e : env) (w : world)
    (ps : list product) (img : upload) :
  method r = POST → all_present r = true →
  files_image r = Some img →
  stored_products w = Some ps →
  let w1 := snd (save_image img e w) in
  add_product_view r e w
  = match form_get r "price" ≫= PyFloat.of_string with
    | Some v =>
        (Returned (Redirect "admin_panel"),
         add_flash "Produto adicionado com sucesso!" "success"
           (put_file PRODUCTS_FILE
              (Json (products_doc
                 (ps ++ [ {| p_id := new_id ps;
                             p_name := form_get r "name";
                             p_description := form_get r "description";
                             p_price := v;
                             p_category := form_get r "category";
                             p_sizes := form_getlist r "sizes";
                             p_image := "uploads/" ++ stored_name img e;
                             p_created_at := env_iso e |} ])))
              w1))
    | None => (Raised ValueError, w1)
    end.
Proof.
  intros Hm Hall Himg Hst w1.
  assert (truthy (form_get r "price") = true) as Hprice.
  { unfold all_present in Hall. by repeat (apply andb_prop in Hall as [Hall ?]). }
  apply truthy_Some in Hprice as (s & Hs & _).
  pose proof (stored_products_save_image img e w) as Hst1.
  rewrite Hst in Hst1. apply stored_products_inv in Hst1 as (d & Hf & <-).
  unfold add_product_view. rewrite Hm. fold (all_present r).
  rewrite Hall, Himg. change (negb true) with false. cbv iota.
  rewrite (bind_returned _ _ _ _ _ (save_image_run img e w)).
  change (put_file _ _ w) with w1.
  rewrite (bind_returned _ _ _ _ _ (load_json_Json _ _ _ Hf)).
  rewrite Hs. simpl. destruct (PyFloat.of_string s) as [v|]; reflexivity.
Qed.

End AddProduct.

Lemma upload_truthy_Some (o : option upload) :
  upload_truthy o = true ↔ ∃ img, o = Some img ∧ up_filename img ≠ "".
Proof.
  destruct o as [img|]; simpl.
  - rewrite negb_true_iff, String.eqb_neq. split.
    + intros Hne. by exists img.
    + intros (img' & [= <-] & Hne). exact Hne.
  - split; [discriminate|]. intros (img & Himg & _). discriminate.
Qed.

Lemma all_present_iff (r : request) :
  all_present r = true
  ↔ (∃ s, form_get r "name" = Some s ∧ s ≠ "")
    ∧ (∃ s, form_get r "description" = Some s ∧ s ≠ "")
    ∧ (∃ s, form_get r "price" = Some s ∧ s ≠ "")
    ∧ (∃ s, form_get r "category" = Some s ∧ s ≠ "")
    ∧ (∃ img, files_image r = Some img ∧ up_filename img ≠ "").
Proof.
  unfold all_present. rewrite !andb_true_iff, !truthy_Some, upload_truthy_Some.
  tauto.
Qed.

(** C3, as the code has it: [add_product] checks that name, description,
    price, category and image are present and not empty.  When one of
    them is missing the user gets the notice and no file changes.  When
    all are present and the price text is a number for [float], of
    whatever sign, a product with the next id and exactly the submitted
    fields is appended to the stored collection. *)
Theorem add_product_contract `{Werkzeug} (r : request) (e : env) (w : world)
    (ps : list product) :
  admin_session w → method r = POST →
  stored_products w = Some ps →
  let w' := snd (add_product r e w) in
  (all_present r = false →
     add_product r e w
     = (Returned (Redirect "add_product"),
        add_flash "Preencha todos os campos" "error" w)
     ∧ files w' = files w)
  ∧ (∀ v, all_present r = true →
       form_get r "price" ≫= PyFloat.of_string = Some v →
       ∃ img, files_image r = Some img
         ∧ fst (add_product r e w) = Returned (Redirect "admin_panel")
         ∧ stored_products w'
           = Some (ps ++ [ {| p_id := new_id ps;
                              p_name := form_get r "name";
                              p_description := form_get r "description";
                              p_price := v;
                              p_category := form_get r "category";
                              p_sizes := form_getlist r "sizes";
                              p_image := "uploads/" ++ stored_name img e;
                              p_created_at := env_iso e |} ])%list
         ∧ flashes w'
           = (flashes w
              ++ [("Produto adicionado com sucesso!", "success")])%list)
  ∧ (all_present r = true
     ↔ (∃ s, form_get r "name" = Some s ∧ s ≠ "")
       ∧ (∃ s, form_get r "description" = Some s ∧ s ≠ "")
       ∧ (∃ s, form_get r "price" = Some s ∧ s ≠ "")
       ∧ (∃ s, form_get r "category" = Some s ∧ s ≠ "")
       ∧ (∃ img, files_image r = Some img ∧ up_filename img ≠ "")).
Proof.
  intros Hadm Hm Hst w'. subst w'. unfold add_product.
  rewrite admin_required_pass by exact Hadm.
  split; [|split; [|apply all_present_iff]].
  - intros Hall. rewrite (add_product_view_incomplete r e w Hm Hall).
    by split.
  - intros v Hall Hv.
    pose proof Hall as Hfields. apply all_present_iff in Hfields
      as (_ & _ & _ & _ & img & Himg & _).
    exists img. split; [exact Himg|].
    rewrite (add_product_view_complete r e w ps img Hm Hall Himg Hst), Hv.
    split; [reflexivity|]. split; [apply stored_products_put|reflexivity].
Qed.

Lemma add_product_contract_witness :
  let W := sample_werkzeug in
  let w := world_with [] [with_id 4 sample_product] admin_identity in
  let r := post [("name", ["Hat"]); ("description", ["Straw hat"]);
                 ("price", ["19.5"]); ("category", ["hats"]);
                 ("sizes", ["S"; "M"])] (Some hat_image) in
  stored_products (snd (add_product r sample_env w))
  = Some [ with_id 4 sample_product;
           {| p_id := 5; p_name := Some "Hat";
              p_description := Some "Straw hat";
              p_price := PyFloat.Finite false 195 (-1);
              p_category := Some "hats"; p_sizes := ["S"; "M"];
              p_image := "uploads/20240101120000_hat.png";
              p_created_at := "2024-01-01T12:00:00" |} ].
Proof.
  intros W w r.
  assert (admin_session w) as Hadm by (split; [by eexists|reflexivity]).
  destruct (add_product_contract r sample_env w [with_id 4 sample_product]
              Hadm eq_refl eq_refl) as (_ & Hok & _).
  destruct (Hok (PyFloat.Finite false 195 (-1)) eq_refl eq_refl)
    as (img & Himg & _ & Hstored & _).
  injection Himg as <-. exact Hstored.
Defined.

(** The claim of C3 asks that a price that is not a non-negative number
    stops the create; a negative price is stored. *)
Lemma add_product_negative_price_stored :
  let W := sample_werkzeug in
  let w := world_with [] [] admin_identity in
  let r := post [("name", ["Hat"]); ("description", ["Straw hat"]);
                 ("price", ["-5"]); ("category", ["hats"])]
             (Some hat_image) in
  ¬ (∀ v, form_get r "price" ≫= PyFloat.of_string = Some v →
          PyFloat.nonneg v = false →
          stored_products (snd (add_product r sample_env w))
          = stored_products w
          ∧ fst (add_product r sample_env w)
            = Returned (Redirect "add_product")).
Proof.
  intros W w r Hclaim.
  destruct (Hclaim (PyFloat.Finite true 5 0) eq_refl eq_refl) as [Hkept _].
  vm_compute in Hkept. discriminate.
Qed.

(** ** Editing a product *)

Section EditProduct.
Context `{Werkzeug}.

Lemma edit_product_view_missing (i : Z) (r : request) (e : env) (w : world)
    (ps : list product) :
  stored_products w = Some ps → find_product i ps = None →
  edit_product_view i r e w
  = (Returned (Redirect "admin_panel"),
     add_flash "Produto não encontrado" "error" w).
Proof.
  intros Hst Hfind. apply stored_products_inv in Hst as (d & Hf & <-).
  unfold edit_product_view.
  rewrite (bind_returned _ _ _ _ _ (load_json_Json _ _ _ Hf)).
  rewrite Hfind. reflexivity.
Qed.

Lemma edit_product_view_post (i : Z) (r : request) (e : env) (w : world)
    (ps : list product) (k : nat) (p : product) :
  method r = POST →
  stored_products w = Some ps → find_product i ps = Some (k, p) →
  edit_product_view i r e w
  = match form_get r "price" with
    | None => (Raised TypeError, w)
    | Some s =>
        match PyFloat.of_string s with
        | None => (Raised ValueError, w)
        | Some v =>
            (Returned (Redirect "admin_panel"),
             add_flash "Produto atualizado com sucesso!" "success"
               (put_file PRODUCTS_FILE
                  (Json (products_doc (<[k := edited r e v p]> ps)))
                  (after_upload r e w)))
        end
    end.
Proof.
  intros Hm Hst Hfind. apply stored_products_inv in Hst as (d & Hf & <-).
  unfold edit_product_view.
  rewrite (bind_returned _ _ _ _ _ (load_json_Json _ _ _ Hf)).
  rewrite Hfind, Hm.
  destruct (form_get r "price") as [s|]; [|reflexivity]. simpl.
  destruct (PyFloat.of_string s) as [v|]; [|reflexivity].
  unfold edited, edited_image, after_upload.
  destruct (files_image r) as [img|]; [|reflexivity].
  destruct (upload_truthy (Some img)); reflexivity.
Qed.

Lemma stored_products_after_upload (r : request) (e : env) (w : world) :
  stored_products (after_upload r e w) = stored_products w.
Proof.
  unfold after_upload. destruct (files_image r) as [img|]; [|reflexivity].
  destruct (upload_truthy (Some img)); [|reflexivity].
  apply stored_products_save_image.
Qed.

End EditProduct.

Lemma edit_product_stored `{Werkzeug} (i : Z) (r : request) (e : env)
    (w : world) (ps : list product) (k : nat) (p : product) (v : PyFloat.t) :
  admin_session w → method r = POST →
  stored_products w = Some ps → find_product i ps = Some (k, p) →
  form_get r "price" ≫= PyFloat.of_string = Some v →
  fst (edit_product i r e w) = Returned (Redirect "admin_panel")
  ∧ stored_products (snd (edit_product i r e w))
    = Some (<[k := edited r e v p]> ps).
Proof.
  intros Hadm Hm Hst Hfind Hv. unfold edit_product.
  rewrite admin_required_pass by exact Hadm.
  rewrite (edit_product_view_post i r e w ps k p Hm Hst Hfind).
  destruct (form_get r "price") as [s|]; [|discriminate]. simpl in Hv.
  rewrite Hv. split; [reflexivity|apply stored_products_put].
Qed.

Lemma edit_product_stored_cases `{Werkzeug} (i : Z) (r : request) (e : env)
    (w : world) (ps : list product) (k : nat) (p : product) :
  admin_session w → method r = POST →
  stored_products w = Some ps → find_product i ps = Some (k, p) →
  (form_get r "price" ≫= PyFloat.of_string = None
   ∧ stored_products (snd (edit_product i r e w)) = Some ps)
  ∨ (∃ v, form_get r "price" ≫= PyFloat.of_string = Some v
        ∧ stored_products (snd (edit_product i r e w))
          = Some (<[k := edited r e v p]> ps)).
Proof.
  intros Hadm Hm Hst Hfind.
  destruct (form_get r "price" ≫= PyFloat.of_string) as [v|] eqn:Hv.
  - right. exists v. split; [reflexivity|].
    by apply (edit_product_stored i r e w ps k p v).
  - left. split; [reflexivity|]. unfold edit_product.
    rewrite admin_required_pass by exact Hadm.
    rewrite (edit_product_view_post i r e w ps k p Hm Hst Hfind).
    destruct (form_get r "price") as [s|]; [|exact Hst]. simpl in Hv.
    rewrite Hv. exact Hst.
Qed.

(** C7, as the code has it: an update of an existing product by an
    administrator whose price text [float] accepts replaces name,
    description, price, category and sizes of the product found with the
    submitted values (the price being the number its text denotes),
    replaces the image reference when an image with a file name is
    uploaded and keeps it otherwise.  Whatever is submitted, [id] and
    [created_at] of that product stay, an image reference without upload
    stays, and every other position of the collection is as it was. *)
Theorem edit_product_frame `{Werkzeug} (i : Z) (r : request) (e : env)
    (w : world) (ps : list product) (k : nat) (p : product) :
  admin_session w → method r = POST →
  stored_products w = Some ps → find_product i ps = Some (k, p) →
  ps !! k = Some p ∧ p_id p = i
  ∧ (∀ v, form_get r "price" ≫= PyFloat.of_string = Some v →
       let p' := edited r e v p in
       stored_products (snd (edit_product i r e w)) = Some (<[k := p']> ps)
       ∧ fst (edit_product i r e w) = Returned (Redirect "admin_panel")
       ∧ p_name p' = form_get r "name"
       ∧ p_description p' = form_get r "description"
       ∧ p_price p' = v
       ∧ p_category p' = form_get r "category"
       ∧ p_sizes p' = form_getlist r "sizes"
       ∧ (∀ img, files_image r = Some img → up_filename img ≠ "" →
            p_image p' = "uploads/" ++ stored_name img e))
  ∧ (∃ ps' p',
       stored_products (snd (edit_product i r e w)) = Some ps'
       ∧ ps' !! k = Some p'
       ∧ p_id p' = p_id p
       ∧ p_created_at p' = p_created_at p
       ∧ (upload_truthy (files_image r) = false → p_image p' = p_image p)
       ∧ length ps' = length ps
       ∧ (∀ j, j ≠ k → ps' !! j = ps !! j)).
Proof.
  intros Hadm Hm Hst Hfind.
  pose proof Hfind as Hfound. apply list_find_Some in Hfound as (Hk & Hid & _).
  split; [exact Hk|]. split; [exact Hid|]. split.
  - intros v Hv p'. subst p'.
    destruct (edit_product_stored i r e w ps k p v Hadm Hm Hst Hfind Hv)
      as [Hresp Hstored].
    split; [exact Hstored|]. split; [exact Hresp|].
    do 5 (split; [reflexivity|]).
    intros img Himg Hname. simpl. unfold edited_image. rewrite Himg.
    assert (upload_truthy (Some img) = true) as ->
      by (apply upload_truthy_Some; eauto).
    reflexivity.
  - destruct (edit_product_stored_cases i r e w ps k p Hadm Hm Hst Hfind)
      as [[_ Hsame]|(v & _ & Hstored)].
    + exists ps, p. split; [exact Hsame|]. split; [exact Hk|]. by repeat split.
    + exists (<[k := edited r e v p]> ps), (edited r e v p).
      split; [exact Hstored|]. split.
      { apply list_lookup_insert_eq. by eapply lookup_lt_Some. }
      do 2 (split; [reflexivity|]). split.
      { intros Hno. simpl. unfold edited_image.
        destruct (files_image r) as [img|]; [|reflexivity]. by rewrite Hno. }
      split; [apply length_insert|].
      intros j Hj. by apply list_lookup_insert_ne.
Qed.

Lemma edit_product_frame_witness :
  let W := sample_werkzeug in
  let shirt := with_id 1 sample_product in
  let pants := with_id 2 sample_product in
  let w := world_with [] [shirt; pants] admin_identity in
  let r := post [("name", ["Jeans"]); ("description", ["Denim"]);
                 ("price", ["49.90"]); ("category", ["bottoms"])] None in
  stored_products (snd (edit_product 2 r sample_env w))
  = Some [shirt;
          {| p_id := 2; p_name := Some "Jeans";
             p_description := Some "Denim";
             p_price := PyFloat.Finite false 4990 (-2);
             p_category := Some "bottoms"; p_sizes := [];
             p_image := "uploads/1_shirt.png";
             p_created_at := "2024-01-01T00:00:00" |}].
Proof.
  intros W shirt pants w r.
  assert (admin_session w) as Hadm by (split; [by eexists|reflexivity]).
  destruct (edit_product_frame 2 r sample_env w [shirt; pants] 1%nat pants
              Hadm eq_refl eq_refl eq_refl)
    as (_ & _ & Hreplaced & _).
  destruct (Hreplaced (PyFloat.Finite false 4990 (-2)) eq_refl)
    as (Hstored & _).
  exact Hstored.
Defined.

(** The claim of C7 has every update replace the fields; an update whose
    price text is no number replaces none. *)
Lemma edit_product_bad_price_keeps_fields :
  let W := sample_werkzeug in
  let shirt := with_id 1 sample_product in
  let w := world_with [] [shirt] admin_identity in
  let r := post [("name", ["Jeans"]); ("description", ["Denim"]);
                 ("price", ["ten"]); ("category", ["bottoms"])] None in
  ¬ (∃ p', stored_products (snd (edit_product 1 r sample_env w)) = Some [p']
           ∧ p_name p' = form_get r "name").
Proof.
  intros W shirt w r (p' & Hst & Hname).
  vm_compute in Hst. injection Hst as <-.
  vm_compute in Hname. discriminate.
Qed.

(** C10: [edit_product] stores what the form holds without checking
    presence: a name, description or category absent from the form
    becomes [None] on the stored record, and a price that is absent or is
    no number for [float] makes the handler raise (TypeError, ValueError)
    with no notice and no file written. *)
Theorem edit_product_unvalidated `{Werkzeug} (i : Z) (r : request) (e : env)
    (w : world) (ps : list product) (k : nat) (p : product) :
  admin_session w → method r = POST →
  stored_products w = Some ps → find_product i ps = Some (k, p) →
  (∀ v, form_get r "price" ≫= PyFloat.of_string = Some v →
     let p' := edited r e v p in
     stored_products (snd (edit_product i r e w)) = Some (<[k := p']> ps)
     ∧ (<[k := p']> ps) !! k = Some p'
     ∧ (form r !! "name" = None → p_name p' = None)
     ∧ (form r !! "description" = None → p_description p' = None)
     ∧ (form r !! "category" = None → p_category p' = None))
  ∧ (form_get r "price" = None →
       edit_product i r e w = (Raised TypeError, w))
  ∧ (∀ s, form_get r "price" = Some s → PyFloat.of_string s = None →
       edit_product i r e w = (Raised ValueError, w)).
Proof.
  intros Hadm Hm Hst Hfind.
  pose proof (edit_product_view_post i r e w ps k p Hm Hst Hfind) as Hrun.
  split; [|split].
  - intros v Hv p'. subst p'.
    destruct (edit_product_stored i r e w ps k p v Hadm Hm Hst Hfind Hv)
      as [_ Hstored].
    split; [exact Hstored|]. split.
    { apply list_lookup_insert_eq. apply list_find_Some in Hfind as (Hk & _).
      by eapply lookup_lt_Some. }
    unfold edited, form_get. simpl.
    repeat split; intros ->; reflexivity.
  - intros Hnone. unfold edit_product.
    rewrite admin_required_pass by exact Hadm. by rewrite Hrun, Hnone.
  - intros s Hs Hbad. unfold edit_product.
    rewrite admin_required_pass by exact Hadm. by rewrite Hrun, Hs, Hbad.
Qed.

Lemma edit_product_unvalidated_witness :
  let W := sample_werkzeug in
  let shirt := with_id 1 sample_product in
  let w := world_with [] [shirt] admin_identity in
  let no_name := post [("price", ["10"])] None in
  let no_price := post [("name", ["Shirt"])] None in
  let bad_price := post [("name", ["Shirt"]); ("price", ["ten"])] None in
  stored_products (snd (edit_product 1 no_name sample_env w))
  = Some [ {| p_id := 1; p_name := None; p_description := None;
              p_price := PyFloat.Finite false 10 0; p_category := None;
              p_sizes := []; p_image := "uploads/1_shirt.png";
              p_created_at := "2024-01-01T00:00:00" |} ]
  ∧ edit_product 1 no_price sample_env w = (Raised TypeError, w)
  ∧ edit_product 1 bad_price sample_env w = (Raised ValueError, w).
Proof.
  intros W shirt w no_name no_price bad_price.
  assert (admin_session w) as Hadm by (split; [by eexists|reflexivity]).
  split; [|split].
  - destruct (edit_product_unvalidated 1 no_name sample_env w [shirt]
                0%nat shirt Hadm eq_refl eq_refl eq_refl) as (Hok & _).
    destruct (Hok (PyFloat.Finite false 10 0) eq_refl) as (Hstored & _).
    exact Hstored.
  - destruct (edit_product_unvalidated 1 no_price sample_env w [shirt]
                0%nat shirt Hadm eq_refl eq_refl eq_refl) as (_ & Hnone & _).
    apply Hnone. reflexivity.
  - destruct (edit_product_unvalidated 1 bad_price sample_env w [shirt]
                0%nat shirt Hadm eq_refl eq_refl eq_refl) as (_ & _ & Hbad).
    apply (Hbad "ten"); reflexivity.
Defined.

(** ** Sequences of creates and deletes *)

Lemma StronglySorted_lt_NoDup (l : list Z) :
  StronglySorted Z.lt l → NoDup l.
Proof.
  induction 1 as [|x l Hs IH Hall]; constructor; [|exact IH].
  intros Hin. rewrite Forall_forall in Hall. specialize (Hall x Hin). lia.
Qed.

(** The handlers write exactly [create] and [delete] of what they read. *)
Lemma add_product_is_create `{Werkzeug} (r : request) (e : env) (w : world)
    (ps : list product) (img : upload) (v : PyFloat.t) :
  admin_session w → method r = POST → all_present r = true →
  files_image r = Some img →
  form_get r "price" ≫= PyFloat.of_string = Some v →
  stored_products w = Some ps →
  stored_products (snd (add_product r e w))
  = Some (create {| p_id := 0;
                    p_name := form_get r "name";
                    p_description := form_get r "description";
                    p_price := v;
                    p_category := form_get r "category";
                    p_sizes := form_getlist r "sizes";
                    p_image := "uploads/" ++ stored_name img e;
                    p_created_at := env_iso e |} ps).
Proof.
  intros Hadm Hm Hall Himg Hv Hst. unfold add_product.
  rewrite admin_required_pass by exact Hadm.
  rewrite (add_product_view_complete r e w ps img Hm Hall Himg Hst), Hv.
  apply stored_products_put.
Qed.

Lemma delete_product_is_delete (i : Z) (w : world) (ps : list product) :
  admin_session w → stored_products w = Some ps →
  stored_products (snd (delete_product i w)) = Some (delete i ps).
Proof.
  intros Hadm Hst. unfold delete_product.
  rewrite admin_required_pass by exact Hadm.
  rewrite (delete_product_view_run i w ps Hst). apply stored_products_put.
Qed.

Example handlers_scenario :
  let W := sample_werkzeug in
  let w := world_with [] [] admin_identity in
  (λ ps : list product, p_id <$> ps) <$> stored_products
    (then_run w [add_product hat_request sample_env;
                 add_product hat_request sample_env;
                 delete_product 1;
                 add_product hat_request sample_env])
  = Some [2; 3].
Proof. vm_compute. reflexivity. Qed.

Example handlers_reuse_id :
  let W := sample_werkzeug in
  let w := world_with [] [] admin_identity in
  (λ ps : list product, p_id <$> ps) <$> stored_products
    (then_run w [add_product hat_request sample_env;
                 add_product hat_request sample_env;
                 delete_product 2;
                 add_product hat_request sample_env])
  = Some [1; 2].
Proof. vm_compute. reflexivity. Qed.

(** C1, as the code has it: in every sequence of creates and deletes
    from any collection each create assigns the largest stored id (0 for
    an empty collection) plus one; that id exceeds, and so differs from,
    every id stored at that moment, and stored ids that were pairwise
    distinct stay so.  When no delete of the sequence removes a product
    holding the largest stored id, the assigned ids increase strictly,
    are pairwise distinct and exceed every id of the initial collection. *)
Theorem create_delete_ids (ops : list op) (products : list product) :
  (∀ pre p post, ops = (pre ++ Create p :: post)%list →
     let now := run pre products in
     assigned ops products
     = (assigned pre products
        ++ new_id now :: assigned post (create p now))%list
     ∧ create p now = (now ++ [with_id (new_id now) p])%list
     ∧ new_id now = max_default (p_id <$> now) 0 + 1
     ∧ (now = [] → new_id now = 1)
     ∧ (∀ q, q ∈ now → p_id q < new_id now)
     ∧ new_id now ∉ (p_id <$> now))
  ∧ (NoDup (p_id <$> products) → NoDup (p_id <$> run ops products))
  ∧ (spares_max ops products →
       StronglySorted Z.lt (assigned ops products)
       ∧ NoDup (assigned ops products)
       ∧ Forall (λ i, ∀ q, q ∈ products → p_id q < i)
           (assigned ops products)).
Proof.
  split; [|split].
  - intros pre p post -> now. split; [by rewrite assigned_app|].
    split; [reflexivity|]. split; [reflexivity|].
    split; [by intros ->|]. split; [apply new_id_gt|apply new_id_fresh].
  - apply NoDup_ids_run.
  - intros Hs. destruct (assigned_increasing ops products Hs) as [Hsorted Hall].
    split; [exact Hsorted|]. split; [by apply StronglySorted_lt_NoDup|].
    eapply Forall_impl; [exact Hall|]. intros i Hi q Hq. simpl in Hi.
    pose proof (max_default_ge (p_id <$> products) 0 (p_id q)
                  (list_elem_of_fmap_2 p_id _ _ Hq)). lia.
Qed.

(** The scenario of the specification: ids 1 and 2, delete 1, then 3. *)
Lemma create_delete_ids_witness :
  let ops := [Create sample_product; Create sample_product; Delete 1;
              Create sample_product] in
  assigned ops [] = [1; 2; 3]
  ∧ StronglySorted Z.lt (assigned ops [])
  ∧ NoDup (p_id <$> run ops []).
Proof.
  intros ops. destruct (create_delete_ids ops []) as (_ & Hnd & Hinc).
  split; [reflexivity|]. split.
  - apply Hinc. simpl. split; [|exact I]. intros _. vm_compute. reflexivity.
  - apply Hnd. constructor.
Defined.

(** The claim of C1 fails when the product with the largest id is
    deleted: the next create hands its id out again. *)
Lemma id_reused_after_delete :
  let ops := [Create sample_product; Create sample_product; Delete 2;
              Create sample_product] in
  assigned ops [] = [1; 2; 2]
  ∧ ¬ NoDup (assigned ops [])
  ∧ ¬ StronglySorted Z.lt (assigned ops []).
Proof.
  intros ops. split; [reflexivity|].
  assert (¬ NoDup (assigned ops [])) as Hdup.
  { change (assigned ops []) with [1; 2; 2]. intros Hnd.
    apply NoDup_cons in Hnd as [_ Hnd]. apply NoDup_cons in Hnd as [Hin _].
    apply Hin, list_elem_of_here. }
  split; [exact Hdup|]. intros Hs. by apply Hdup, StronglySorted_lt_NoDup.
Qed.

(** ** The document store *)

Section Store.
Context `{Werkzeug}.

Lemma init_json_files_run (e : env) (w : world) :
  init_json_files e w
  = (Returned tt,
     let w1 := if bool_decide (is_Some (files w !! USERS_FILE)) then w
               else put_file USERS_FILE (Json (users_doc [default_admin e])) w in
     if bool_decide (is_Some (files w1 !! PRODUCTS_FILE)) then w1
     else put_file PRODUCTS_FILE (Json (products_doc [])) w1).
Proof.
  unfold init_json_files, bind, exists_file.
  destruct (bool_decide (is_Some (files w !! USERS_FILE))); simpl.
  - destruct (bool_decide (is_Some (files w !! PRODUCTS_FILE))); reflexivity.
  - destruct (bool_decide (is_Some (_ !! PRODUCTS_FILE))); reflexivity.
Qed.

Lemma init_json_files_keeps (e : env) (w : world) (g : string) (x : file) :
  files w !! g = Some x → files (snd (init_json_files e w)) !! g = Some x.
Proof.
  intros Hg. rewrite init_json_files_run. simpl.
  assert (∀ w0 f y, files w0 !! g = Some x →
            files (if bool_decide (is_Some (files w0 !! f)) then w0
                   else put_file f y w0) !! g = Some x) as Hstep.
  { intros w0 f y Hw0. case_bool_decide as Hf; [exact Hw0|]. simpl.
    rewrite lookup_insert_ne; [exact Hw0|].
    intros ->. apply Hf. rewrite Hw0. by eexists. }
  apply Hstep. by apply Hstep.
Qed.

Lemma init_json_files_products (e : env) (w : world) :
  files w !! PRODUCTS_FILE = None →
  files (snd (init_json_files e w)) !! PRODUCTS_FILE
  = Some (Json (products_doc [])).
Proof.
  intros Hp. rewrite init_json_files_run. simpl.
  assert (∀ w0, files w0 !! PRODUCTS_FILE = None →
            files (if bool_decide (is_Some (files w0 !! PRODUCTS_FILE)) then w0
                   else put_file PRODUCTS_FILE (Json (products_doc [])) w0)
              !! PRODUCTS_FILE = Some (Json (products_doc []))) as Hstep.
  { intros w0 Hw0. rewrite Hw0.
    rewrite bool_decide_eq_false_2 by (by intros [? ?]).
    simpl. apply lookup_insert_eq. }
  apply Hstep. case_bool_decide; [exact Hp|].
  simpl. by rewrite lookup_insert_ne.
Qed.

Lemma init_json_files_users (e : env) (w : world) :
  files w !! USERS_FILE = None →
  files (snd (init_json_files e w)) !! USERS_FILE
  = Some (Json (users_doc [default_admin e])).
Proof.
  intros Hu. rewrite init_json_files_run. simpl. rewrite Hu.
  rewrite (bool_decide_eq_false_2 (is_Some None)) by (by intros [? ?]).
  case_bool_decide; simpl.
  - apply lookup_insert_eq.
  - rewrite lookup_insert_ne by done. apply lookup_insert_eq.
Qed.

End Store.




(** ** Load failures in the handlers *)

Lemma register_load_failure `{Werkzeug} (r : request) (e : env) (w : world) :
  method r = POST →
  truthy (form_get r "email") = true → truthy (form_get r "password") = true →
  (files w !! USERS_FILE = None →
     register r e w = (Raised FileNotFoundError, w))
  ∧ (∀ b, files w !! USERS_FILE = Some (Raw b) → PyUtf8.valid b = true →
       register r e w = (Raised JSONDecodeError, w)).
Proof.
  intros Hm He Hp. unfold register. rewrite Hm, He, Hp. simpl. split.
  - intros Hf. by rewrite (bind_raised _ _ _ _ _ (load_json_missing _ _ Hf)).
  - intros b Hf Hv.
    by rewrite (bind_raised _ _ _ _ _ (load_json_Raw _ _ _ Hf Hv)).
Qed.

Lemma index_recovers `{Werkzeug} (e : env) (w : world) :
  (files w !! PRODUCTS_FILE = None →
     index e w
     = (Returned (Render "index.html" (WithProducts [])),
        snd (init_json_files e w)))
  ∧ (∀ b, files w !! PRODUCTS_FILE = Some (Raw b) → PyUtf8.valid b = true →
       index e w
       = (Returned (Render "index.html" (WithProducts [])),
          snd (init_json_files e w))).
Proof.
  split.
  - intros Hf. unfold index, bind at 1, try_except, bind at 1.
    rewrite (load_json_missing _ _ Hf). unfold bind at 1.
    rewrite init_json_files_run. reflexivity.
  - intros b Hf Hv. unfold index, bind at 1, try_except, bind at 1.
    rewrite (load_json_Raw _ _ _ Hf Hv). unfold bind at 1.
    rewrite init_json_files_run. reflexivity.
Qed.

(** C2 at its failing inputs: with the collection files missing, or
    holding bytes that are not JSON, only the product listing recovers
    (and the product page answers with a notice); registration, login,
    the admin listing, create, update and delete let the exception of
    [load_json] escape. *)
Theorem load_failure_escapes :
  let W := sample_werkzeug in
  let w := bare_world in
  let c := garbled (world_with [] [] admin_identity) in
  register ana_request sample_env w = (Raised FileNotFoundError, w)
  ∧ login ana_request w = (Raised FileNotFoundError, w)
  ∧ admin_panel w = (Raised FileNotFoundError, w)
  ∧ fst (add_product hat_request sample_env w) = Raised FileNotFoundError
  ∧ edit_product 1 hat_request sample_env w = (Raised FileNotFoundError, w)
  ∧ delete_product 1 w = (Raised FileNotFoundError, w)
  ∧ register ana_request sample_env c = (Raised JSONDecodeError, c)
  ∧ login ana_request c = (Raised JSONDecodeError, c)
  ∧ admin_panel c = (Raised JSONDecodeError, c)
  ∧ fst (add_product hat_request sample_env c) = Raised JSONDecodeError
  ∧ edit_product 1 hat_request sample_env c = (Raised JSONDecodeError, c)
  ∧ delete_product 1 c = (Raised JSONDecodeError, c)
  ∧ fst (index sample_env w) = Returned (Render "index.html" (WithProducts []))
  ∧ stored_products (snd (index sample_env w)) = Some []
  ∧ fst (index sample_env c) = Returned (Render "index.html" (WithProducts []))
  ∧ files (snd (index sample_env c)) = files c
  ∧ product_detail 1 w
    = (Returned (Redirect "index"),
       add_flash "Erro ao carregar produtos" "error" w)
  ∧ product_detail 1 c
    = (Returned (Redirect "index"),
       add_flash "Erro ao carregar produtos" "error" c).
Proof.
  intros W w c. repeat split; vm_compute; reflexivity.
Qed.

(** * Further properties of the handlers *)

(** ** What the handlers return when the files load *)

Lemma stored_users_put_other (f : string) (x : file) (w : world) :
  f ≠ USERS_FILE → stored_users (put_file f x w) = stored_users w.
Proof.
  intros Hne. unfold stored_users, put_file. simpl.
  rewrite lookup_insert_ne by exact Hne. reflexivity.
Qed.

Lemma upload_path_not_users (name : string) :
  UPLOAD_FOLDER ++ "/" ++ name ≠ USERS_FILE.
Proof. discriminate. Qed.

Lemma stored_users_add_flash (m c : string) (w : world) :
  stored_users (add_flash m c w) = stored_users w.
Proof. reflexivity. Qed.

Lemma stored_products_add_flash (m c : string) (w : world) :
  stored_products (add_flash m c w) = stored_products w.
Proof. reflexivity. Qed.

Lemma admin_session_dec (w : world) : admin_session w ∨ ¬ admin_session w.
Proof.
  unfold admin_session.
  destruct (decide (is_Some (s_user_email (sess w)))) as [Hid|Hid];
    destruct (decide (s_is_admin (sess w) = Some true)) as [Hadm|Hadm];
    tauto.
Qed.

Lemma index_loaded `{Werkzeug} (e : env) (w : world) (ps : list product) :
  stored_products w = Some ps →
  index e w = (Returned (Render "index.html" (WithProducts ps)), w).
Proof.
  intros Hst. apply stored_products_inv in Hst as (d & Hf & <-).
  unfold index, bind at 1, try_except, bind at 1.
  rewrite (load_json_Json _ _ _ Hf). reflexivity.
Qed.

Lemma admin_panel_loaded (w : world) (ps : list product) :
  admin_session w → stored_products w = Some ps →
  admin_panel w = (Returned (Render "admin.html" (WithProducts ps)), w).
Proof.
  intros Hadm Hst. apply stored_products_inv in Hst as (d & Hf & <-).
  unfold admin_panel. rewrite admin_required_pass by exact Hadm.
  rewrite (bind_returned _ _ _ _ _ (load_json_Json _ _ _ Hf)). reflexivity.
Qed.

Lemma register_get `{Werkzeug} (r : request) (e : env) (w : world) :
  method r = GET →
  register r e w = (Returned (Render "register.html" NoContext), w).
Proof. intros Hm. unfold register. rewrite Hm. reflexivity. Qed.

Lemma login_get `{Werkzeug} (r : request) (w : world) :
  method r = GET →
  login r w = (Returned (Render "login.html" NoContext), w).
Proof. intros Hm. unfold login. rewrite Hm. reflexivity. Qed.

Lemma add_product_view_get `{Werkzeug} (r : request) (e : env) (w : world) :
  method r = GET →
  add_product_view r e w
  = (Returned (Render "add_product.html" NoContext), w).
Proof. intros Hm. unfold add_product_view. rewrite Hm. reflexivity. Qed.

Lemma edit_product_view_get `{Werkzeug} (i : Z) (r : request) (e : env)
    (w : world) (ps : list product) (k : nat) (p : product) :
  method r = GET →
  stored_products w = Some ps → find_product i ps = Some (k, p) →
  edit_product_view i r e w
  = (Returned (Render "edit_product.html" (WithProduct p)), w).
Proof.
  intros Hm Hst Hfind. apply stored_products_inv in Hst as (d & Hf & <-).
  unfold edit_product_view.
  rewrite (bind_returned _ _ _ _ _ (load_json_Json _ _ _ Hf)).
  rewrite Hfind, Hm. reflexivity.
Qed.

(** ** The effect of one call on the stored data *)

Lemma effect_quiet `{Werkzeug} (lg : option request) (us : list user)
    (ps : list product) (w w' : world) :
  stored_users w = Some us → stored_products w = Some ps →
  files w' = files w → sess w' = sess w →
  effect lg us ps w w'.
Proof.
  intros Hus Hps Hf Hs. exists us, ps.
  unfold stored_users, stored_products in *. rewrite Hf, Hs.
  split; [exact Hus|]. split; [exact Hps|]. split; [constructor|].
  split; [by intros _|]. by left.
Qed.

Lemma effect_admin `{Werkzeug} (lg : option request) (us : list user)
    (ps : list product) (w w' : world) (ps' : list product) :
  admin_session w →
  stored_users w' = Some us → stored_products w' = Some ps' →
  db_step us ps us ps' → sess w' = sess w →
  effect lg us ps w w'.
Proof.
  intros Hadm Hus Hps Hstep Hs. exists us, ps'.
  split; [exact Hus|]. split; [exact Hps|]. split; [exact Hstep|].
  split; [by intros Hno|]. rewrite Hs. by left.
Qed.

Lemma effect_gate `{Werkzeug} (lg : option request) (us : list user)
    (ps : list product) (f : M response) (w : world) :
  stored_users w = Some us → stored_products w = Some ps →
  (admin_session w → effect lg us ps w (snd (f w))) →
  effect lg us ps w (snd (admin_required f w)).
Proof.
  intros Hus Hps Hf. destruct (admin_session_dec w) as [Hadm|Hno].
  - rewrite admin_required_pass by exact Hadm. by apply Hf.
  - rewrite admin_required_reject by exact Hno. by apply effect_quiet.
Qed.

Section Effects.
Context `{Werkzeug}.

Lemma stored_users_save_image (img : upload) (e : env) (w : world) :
  stored_users (snd (save_image img e w)) = stored_users w.
Proof.
  rewrite save_image_run. simpl.
  apply stored_users_put_other, upload_path_not_users.
Qed.

Lemma stored_users_after_upload (r : request) (e : env) (w : world) :
  stored_users (after_upload r e w) = stored_users w.
Proof.
  unfold after_upload. destruct (files_image r) as [img|]; [|reflexivity].
  destruct (upload_truthy (Some img)); [|reflexivity].
  apply stored_users_save_image.
Qed.

Lemma sess_after_upload (r : request) (e : env) (w : world) :
  sess (after_upload r e w) = sess w.
Proof.
  unfold after_upload. destruct (files_image r) as [img|]; [|reflexivity].
  destruct (upload_truthy (Some img)); reflexivity.
Qed.

Lemma index_effect (e : env) (w : world) (us : list user)
    (ps : list product) :
  stored_users w = Some us → stored_products w = Some ps →
  effect None us ps w (snd (index e w)).
Proof.
  intros Hus Hps. rewrite (index_loaded e w ps Hps). by apply effect_quiet.
Qed.

Lemma product_detail_effect (i : Z) (w : world) (us : list user)
    (ps : list product) :
  stored_users w = Some us → stored_products w = Some ps →
  effect None us ps w (snd (product_detail i w)).
Proof.
  intros Hus Hps. rewrite (product_detail_run i w ps Hps).
  destruct (find_product i ps) as [[k p]|]; by apply effect_quiet.
Qed.

Lemma register_effect (r : request) (e : env) (w : world) (us : list user)
    (ps : list product) :
  stored_users w = Some us → stored_products w = Some ps →
  effect None us ps w (snd (register r e w)).
Proof.
  intros Hus Hps. destruct (method r) eqn:Hm.
  { rewrite (register_get r e w Hm). by apply effect_quiet. }
  destruct (truthy (form_get r "email")) eqn:He.
  2:{ rewrite (register_incomplete r e w Hm (or_introl He)).
      by apply effect_quiet. }
  destruct (truthy (form_get r "password")) eqn:Hp.
  2:{ rewrite (register_incomplete r e w Hm (or_intror Hp)).
      by apply effect_quiet. }
  destruct (existsb (λ u, bool_decide (Some (u_email u) = form_get r "email"))
              us) eqn:Hex.
  { apply email_taken_iff in Hex.
    rewrite (register_duplicate r e w us Hm He Hp Hus Hex).
    by apply effect_quiet. }
  apply truthy_Some in He as (em & Hem & Hne).
  apply truthy_Some in Hp as (pw & Hpw & Hnp).
  assert (∀ u, u ∈ us → u_email u ≠ em) as Hfresh.
  { intros u Hin Heq. apply not_true_iff_false in Hex. apply Hex.
    apply email_taken_iff. exists u. split; [exact Hin|]. by rewrite Hem, Heq. }
  rewrite (register_fresh r e w us em pw Hm Hem Hne Hpw Hnp Hus Hfresh).
  simpl. eexists _, ps. split; [apply stored_users_put|]. split.
  { rewrite <- Hps. by apply stored_products_put_other. }
  split; [by constructor|]. split; [|by left].
  intros _. split; [reflexivity|].
  intros f Hf. simpl. by rewrite lookup_insert_ne.
Qed.

Lemma login_effect (r : request) (w : world) (us : list user)
    (ps : list product) :
  stored_users w = Some us → stored_products w = Some ps →
  effect (Some r) us ps w (snd (login r w)).
Proof.
  intros Hus Hps. destruct (method r) eqn:Hm.
  { rewrite (login_get r w Hm). by apply effect_quiet. }
  rewrite (login_run r w us Hm Hus).
  destruct (find_user (form_get r "email") us) as [u|] eqn:Hfind;
    [|by apply effect_quiet].
  destruct (check_password_hash _ _) as [[|]|ex] eqn:Hcheck;
    try by apply effect_quiet.
  apply find_user_Some in Hfind as [Hin Heq].
  exists us, ps. split; [exact Hus|]. split; [exact Hps|].
  split; [constructor|]. split; [by intros _|].
  right. right. exists r, u. split; [reflexivity|]. split; [exact Hin|].
  split; [by split|]. simpl. unfold identity_of. by rewrite Heq.
Qed.

Lemma logout_effect (w : world) (us : list user) (ps : list product) :
  stored_users w = Some us → stored_products w = Some ps →
  effect None us ps w (snd (logout w)).
Proof.
  intros Hus Hps. exists us, ps. split; [exact Hus|]. split; [exact Hps|].
  split; [constructor|]. split; [by intros _|]. right. by left.
Qed.

Lemma admin_panel_effect (w : world) (us : list user) (ps : list product) :
  stored_users w = Some us → stored_products w = Some ps →
  effect None us ps w (snd (admin_panel w)).
Proof.
  intros Hus Hps. destruct (admin_session_dec w) as [Hadm|Hno].
  - rewrite (admin_panel_loaded w ps Hadm Hps). by apply effect_quiet.
  - unfold admin_panel. rewrite admin_required_reject by exact Hno.
    by apply effect_quiet.
Qed.

Lemma add_product_effect (r : request) (e : env) (w : world)
    (us : list user) (ps : list product) :
  stored_users w = Some us → stored_products w = Some ps →
  effect None us ps w (snd (add_product r e w)).
Proof.
  intros Hus Hps. apply effect_gate; [exact Hus|exact Hps|]. intros Hadm.
  destruct (method r) eqn:Hm.
  { rewrite (add_product_view_get r e w Hm). by apply effect_quiet. }
  destruct (all_present r) eqn:Hall.
  2:{ rewrite (add_product_view_incomplete r e w Hm Hall).
      by apply effect_quiet. }
  pose proof Hall as Hfields.
  apply all_present_iff in Hfields as (_ & _ & _ & _ & img & Himg & _).
  rewrite (add_product_view_complete r e w ps img Hm Hall Himg Hps).
  pose proof (stored_users_save_image img e w) as Hus1.
  pose proof (stored_products_save_image img e w) as Hps1.
  destruct (form_get r "price" ≫= PyFloat.of_string) as [v|].
  - eapply (effect_admin None us ps w _ _ Hadm).
    + cbn [snd]. rewrite stored_users_add_flash.
      rewrite stored_users_put_other by discriminate. by rewrite Hus1.
    + apply stored_products_put.
    + apply (db_create us ps
               {| p_id := 0; p_name := form_get r "name";
                  p_description := form_get r "description";
                  p_price := v; p_category := form_get r "category";
                  p_sizes := form_getlist r "sizes";
                  p_image := "uploads/" ++ stored_name img e;
                  p_created_at := env_iso e |}).
    + reflexivity.
  - eapply (effect_admin None us ps w _ ps Hadm).
    + cbn [snd]. by rewrite Hus1.
    + cbn [snd]. by rewrite Hps1.
    + constructor.
    + reflexivity.
Qed.

Lemma edit_product_effect (i : Z) (r : request) (e : env) (w : world)
    (us : list user) (ps : list product) :
  stored_users w = Some us → stored_products w = Some ps →
  effect None us ps w (snd (edit_product i r e w)).
Proof.
  intros Hus Hps. apply effect_gate; [exact Hus|exact Hps|]. intros Hadm.
  destruct (find_product i ps) as [[k p]|] eqn:Hfind.
  2:{ rewrite (edit_product_view_missing i r e w ps Hps Hfind).
      by apply effect_quiet. }
  destruct (method r) eqn:Hm.
  { rewrite (edit_product_view_get i r e w ps k p Hm Hps Hfind).
    by apply effect_quiet. }
  rewrite (edit_product_view_post i r e w ps k p Hm Hps Hfind).
  destruct (form_get r "price") as [s|]; [|by apply effect_quiet].
  destruct (PyFloat.of_string s) as [v|]; [|by apply effect_quiet].
  eapply (effect_admin None us ps w _ _ Hadm).
  - cbn [snd]. rewrite stored_users_add_flash.
    rewrite stored_users_put_other by discriminate.
    by rewrite stored_users_after_upload.
  - apply stored_products_put.
  - apply list_find_Some in Hfind as (Hk & _).
    by apply (db_edit us ps k p (edited r e v p)).
  - cbn [snd]. apply sess_after_upload.
Qed.

Lemma delete_product_effect (i : Z) (w : world) (us : list user)
    (ps : list product) :
  stored_users w = Some us → stored_products w = Some ps →
  effect None us ps w (snd (delete_product i w)).
Proof.
  intros Hus Hps. apply effect_gate; [exact Hus|exact Hps|]. intros Hadm.
  rewrite (delete_product_view_run i w ps Hps).
  eapply (effect_admin None us ps w _ _ Hadm).
  - cbn [snd]. rewrite stored_users_add_flash.
    by rewrite stored_users_put_other by discriminate.
  - apply stored_products_put.
  - apply db_delete.
  - reflexivity.
Qed.

Lemma invoke_effect (c : call) (e : env) (w : world) (us : list user)
    (ps : list product) :
  stored_users w = Some us → stored_products w = Some ps →
  effect (login_request c) us ps w (snd (invoke c e w)).
Proof.
  intros Hus Hps. destruct c; simpl.
  - by apply index_effect.
  - by apply product_detail_effect.
  - by apply register_effect.
  - by apply login_effect.
  - by apply logout_effect.
  - by apply admin_panel_effect.
  - by apply add_product_effect.
  - by apply edit_product_effect.
  - by apply delete_product_effect.
Qed.

End Effects.

(** ** Sequences of calls *)

Lemma db_step_users (us us' : list user) (ps ps' : list product) :
  db_step us ps us' ps' →
  ∃ added, us' = (us ++ added)%list
    ∧ Forall (λ u, u_is_admin u = false ∧ u_email u ≠ ""
                   ∧ ∀ v, v ∈ us → u_email v ≠ u_email u) added.
Proof.
  destruct 1 as [|u Hfresh Hne Hadm| | |];
    try (exists []; split; [by rewrite app_nil_r|constructor]).
  exists [u]. split; [reflexivity|]. by repeat constructor.
Qed.


Section Sequences.
Context `{Werkzeug}.

Lemma run_calls_cons (c : call) (e : env) (cs : list (call * env))
    (w : world) :
  run_calls ((c, e) :: cs) w = run_calls cs (snd (invoke c e w)).
Proof. reflexivity. Qed.

Lemma run_calls_users (cs : list (call * env)) (w : world)
    (us : list user) (ps : list product) :
  stored_users w = Some us → stored_products w = Some ps →
  ∃ added ps',
    stored_users (run_calls cs w) = Some (us ++ added)%list
    ∧ stored_products (run_calls cs w) = Some ps'
    ∧ Forall (λ u, u_is_admin u = false ∧ u_email u ≠ "") added.
Proof.
  revert w us ps. induction cs as [|[c e] cs IH]; intros w us ps Hus Hps.
  - exists [], ps. rewrite app_nil_r. by repeat split.
  - rewrite run_calls_cons.
    destruct (invoke_effect c e w us ps Hus Hps)
      as (us1 & ps1 & Hus1 & Hps1 & Hstep & _).
    apply db_step_users in Hstep as (a1 & -> & Ha1).
    destruct (IH _ _ _ Hus1 Hps1) as (a2 & ps2 & Hus2 & Hps2 & Ha2).
    exists (a1 ++ a2)%list, ps2. rewrite app_assoc.
    split; [exact Hus2|]. split; [exact Hps2|].
    apply Forall_app. split; [|exact Ha2].
    eapply Forall_impl; [exact Ha1|]. simpl. tauto.
Qed.

End Sequences.

Lemma login_request_Some (c : call) (r : request) :
  login_request c = Some r → c = CallLogin r.
Proof. destruct c; simpl; intros Heq; try discriminate. congruence. Qed.

Lemma run_calls_locked `{Werkzeug} (cs : list (call * env)) (w0 w : world)
    (us0 : list user) (ps : list product) :
  (∀ c e, (c, e) ∈ cs → ¬ presents_admin_credentials us0 c) →
  (∃ us, stored_users w = Some us
     ∧ ∀ u, u ∈ us → u_is_admin u = true → u ∈ us0) →
  stored_products w = Some ps →
  (∀ f, f ≠ USERS_FILE → files w !! f = files w0 !! f) →
  ¬ admin_session w →
  (∃ us, stored_users (run_calls cs w) = Some us
     ∧ ∀ u, u ∈ us → u_is_admin u = true → u ∈ us0)
  ∧ stored_products (run_calls cs w) = Some ps
  ∧ (∀ f, f ≠ USERS_FILE → files (run_calls cs w) !! f = files w0 !! f)
  ∧ ¬ admin_session (run_calls cs w).
Proof.
  revert w. induction cs as [|[c e] cs IH];
    intros w Hcs Husers Hps Hfiles Hno; [done|].
  destruct Husers as (us & Hus & Hadmins).
  rewrite run_calls_cons.
  destruct (invoke_effect c e w us ps Hus Hps)
    as (us1 & ps1 & Hus1 & Hps1 & Hstep & Hguard & Hsess).
  destruct (Hguard Hno) as [-> Hsame].
  apply db_step_users in Hstep as (added & -> & Hadded).
  assert (∀ u, u ∈ (us ++ added)%list → u_is_admin u = true → u ∈ us0)
    as Hadmins1.
  { intros u Hu Hadm. apply elem_of_app in Hu as [Hu|Hu]; [by apply Hadmins|].
    rewrite Forall_forall in Hadded. destruct (Hadded u Hu) as [Hfalse _].
    congruence. }
  apply IH.
  - intros c' e' Hin. apply (Hcs c' e'). by apply list_elem_of_further.
  - by exists (us ++ added)%list.
  - exact Hps1.
  - intros f Hf. rewrite (Hsame f Hf). by apply Hfiles.
  - unfold admin_session.
    destruct Hsess as [-> | [-> | (r & u & Hlg & Hu & Hacc & ->)]].
    + exact Hno.
    + simpl. intros [[? Hid] _]. discriminate.
    + simpl. intros [_ Hadm]. injection Hadm as Hadm.
      apply login_request_Some in Hlg. subst c.
      apply (Hcs (CallLogin r) e); [apply list_elem_of_here|].
      exists r, u. split; [reflexivity|]. split; [by apply Hadmins|].
      by split.
Qed.





(** X3: no sequence of calls changes or removes a stored user record:
    the users afterwards are the users before followed by the records
    added, and every added record is no administrator and has a
    non-empty email. *)
Theorem users_only_appended `{Werkzeug} (cs : list (call * env)) (w : world)
    (us : list user) (ps : list product) :
  stored_users w = Some us → stored_products w = Some ps →
  ∃ added,
    stored_users (run_calls cs w) = Some (us ++ added)%list
    ∧ Forall (λ u, u_is_admin u = false ∧ u_email u ≠ "") added.
Proof.
  intros Hus Hps.
  destruct (run_calls_users cs w us ps Hus Hps) as (added & ps' & H1 & _ & H2).
  by exists added.
Qed.

Lemma users_only_appended_witness :
  let W := sample_werkzeug in
  ∃ added,
    stored_users
      (run_calls [(CallRegister ana_request, sample_env);
                  (CallLogin boss_request, sample_env);
                  (CallDeleteProduct 1, sample_env)]
         (world_with [boss] [with_id 1 sample_product] anonymous))
    = Some ([boss] ++ added)%list
    ∧ Forall (λ u, u_is_admin u = false ∧ u_email u ≠ "") added.
Proof.
  intros W.
  exact (users_only_appended
           [(CallRegister ana_request, sample_env);
            (CallLogin boss_request, sample_env);
            (CallDeleteProduct 1, sample_env)]
           (world_with [boss] [with_id 1 sample_product] anonymous)
           [boss] [with_id 1 sample_product] eq_refl eq_refl).
Defined.

(** X4: from a state without admin session, a sequence of calls in which
    no login presents the email and an accepted password of a stored
    administrator never changes the stored products nor any file other
    than the users file, and ends without admin session. *)
Theorem catalogue_locked `{Werkzeug} (cs : list (call * env)) (w : world)
    (us : list user) (ps : list product) :
  stored_users w = Some us → stored_products w = Some ps →
  ¬ admin_session w →
  (∀ c e, (c, e) ∈ cs → ¬ presents_admin_credentials us c) →
  stored_products (run_calls cs w) = Some ps
  ∧ (∀ f, f ≠ USERS_FILE → files (run_calls cs w) !! f = files w !! f)
  ∧ ¬ admin_session (run_calls cs w).
Proof.
  intros Hus Hps Hno Hcs.
  destruct (run_calls_locked cs w w us ps Hcs) as (_ & Hps' & Hfiles & Hno');
    try done.
  exists us. by split.
Qed.

Lemma catalogue_locked_witness :
  let W := sample_werkzeug in
  let w := world_with [boss] [with_id 1 sample_product] customer_identity in
  let cs := [(CallDeleteProduct 1, sample_env);
             (CallLogin guess_request, sample_env);
             (CallAddProduct hat_request, sample_env);
             (CallRegister ana_request, sample_env);
             (CallEditProduct 1 hat_request, sample_env)] in
  stored_products (run_calls cs w) = Some [with_id 1 sample_product]
  ∧ ¬ admin_session (run_calls cs w).
Proof.
  intros W w cs.
  assert (¬ admin_session w) as Hno by (intros [_ Hadm]; discriminate).
  assert (∀ c e, (c, e) ∈ cs → ¬ presents_admin_credentials [boss] c) as Hcs.
  { intros c e Hin (r & u & -> & Hu & _ & _ & Hcheck).
    apply list_elem_of_singleton in Hu. subst u.
    repeat (apply elem_of_cons in Hin as [Hin|Hin]; [try discriminate|]).
    - injection Hin as -> _. vm_compute in Hcheck. discriminate.
    - by apply elem_of_nil in Hin. }
  destruct (catalogue_locked cs w [boss] [with_id 1 sample_product]
              eq_refl eq_refl Hno Hcs) as (Hps & _ & Hend).
  by split.
Defined.

(** ** Single handlers: edge behaviour and read-back *)

Lemma find_product_None (i : Z) (ps : list product) :
  find_product i ps = None ↔ i ∉ (p_id <$> ps).
Proof.
  unfold find_product. rewrite list_find_None, Forall_forall. split.
  - intros Hno Hin. apply list_elem_of_fmap in Hin as (p & -> & Hp).
    by apply (Hno p Hp).
  - intros Hno p Hp Heq. apply Hno. rewrite <- Heq.
    by apply list_elem_of_fmap_2.
Qed.

Lemma find_product_appended (ps : list product) (p : product) :
  p_id p = new_id ps →
  find_product (new_id ps) (ps ++ [p]) = Some (length ps, p).
Proof.
  intros Hid. unfold find_product. apply list_find_Some. split.
  - rewrite lookup_app_r by lia. by rewrite Nat.sub_diag.
  - split; [exact Hid|]. intros j q Hq Hj.
    rewrite lookup_app_l in Hq by exact Hj.
    apply list_elem_of_lookup_2 in Hq. pose proof (new_id_gt ps q Hq). lia.
Qed.

Lemma find_product_replaced (i : Z) (ps : list product) (k : nat)
    (p p' : product) :
  find_product i ps = Some (k, p) → p_id p' = p_id p →
  find_product i (<[k := p']> ps) = Some (k, p').
Proof.
  unfold find_product. intros Hfind Hid.
  apply list_find_Some in Hfind as (Hk & Hp & Hfirst).
  apply list_find_Some. split.
  - apply list_lookup_insert_eq. by eapply lookup_lt_Some.
  - split; [congruence|]. intros j q Hq Hj.
    rewrite list_lookup_insert_ne in Hq by lia. by apply (Hfirst j q).
Qed.

Lemma find_user_appended (em : string) (us : list user) (u : user) :
  (∀ v, v ∈ us → u_email v ≠ em) → u_email u = em →
  find_user (Some em) (us ++ [u]) = Some u.
Proof.
  intros Hfresh Hu. unfold find_user. induction us as [|v us IH]; simpl.
  - rewrite bool_decide_eq_true_2 by congruence. reflexivity.
  - rewrite bool_decide_eq_false_2.
    + apply IH. intros x Hx. apply Hfresh. by apply list_elem_of_further.
    + intros [= Heq]. by apply (Hfresh v (list_elem_of_here _ _)).
Qed.

Section Init.
Context `{Werkzeug}.

Lemma init_json_files_world (e : env) (w : world) :
  ∃ fs, snd (init_json_files e w)
        = {| files := fs; sess := sess w; flashes := flashes w |}
    ∧ is_Some (fs !! USERS_FILE) ∧ is_Some (fs !! PRODUCTS_FILE)
    ∧ (∀ g, g ≠ USERS_FILE → g ≠ PRODUCTS_FILE → fs !! g = files w !! g).
Proof.
  rewrite init_json_files_run. cbn [snd].
  destruct w as [fs s fl]. cbn [files].
  destruct (decide (is_Some (fs !! USERS_FILE))) as [Hu|Hu];
    [rewrite (bool_decide_eq_true_2 _ Hu)
    |rewrite (bool_decide_eq_false_2 _ Hu)]; cbn [files put_file].
  - destruct (decide (is_Some (fs !! PRODUCTS_FILE))) as [Hp|Hp];
      [rewrite (bool_decide_eq_true_2 _ Hp)
      |rewrite (bool_decide_eq_false_2 _ Hp)].
    + exists fs. by repeat split.
    + eexists. split; [reflexivity|]. split.
      { by rewrite lookup_insert_ne. }
      split; [rewrite lookup_insert_eq; by eexists|].
      intros g _ Hg. by rewrite lookup_insert_ne.
  - destruct (decide (is_Some
        (<[USERS_FILE := Json (users_doc [default_admin e])]> fs
           !! PRODUCTS_FILE))) as [Hp|Hp];
      [rewrite (bool_decide_eq_true_2 _ Hp)
      |rewrite (bool_decide_eq_false_2 _ Hp)].
    + eexists. split; [reflexivity|].
      split; [rewrite lookup_insert_eq; by eexists|]. split; [exact Hp|].
      intros g Hg _. by rewrite lookup_insert_ne.
    + eexists. split; [reflexivity|]. unfold put_file. cbn [files]. split.
      { rewrite lookup_insert_ne by done. rewrite lookup_insert_eq.
        by eexists. }
      split; [rewrite lookup_insert_eq; by eexists|].
      intros g Hg Hg'. by rewrite !lookup_insert_ne.
Qed.

Lemma init_json_files_present (e : env) (w : world) :
  is_Some (files w !! USERS_FILE) → is_Some (files w !! PRODUCTS_FILE) →
  init_json_files e w = (Returned tt, w).
Proof.
  intros Hu Hp. rewrite init_json_files_run.
  rewrite (bool_decide_eq_true_2 _ Hu). cbn zeta.
  rewrite (bool_decide_eq_true_2 _ Hp). reflexivity.
Qed.

End Init.

(** X5: [init_json_files] leaves both collection files in existence,
    never replaces a file that exists, touches no other file, session or
    notice, and a second run, whatever salt it draws, changes nothing. *)
Theorem init_json_files_idempotent `{Werkzeug} (e e' : env) (w : world) :
  let w1 := snd (init_json_files e w) in
  is_Some (files w1 !! USERS_FILE) ∧ is_Some (files w1 !! PRODUCTS_FILE)
  ∧ (∀ g x, files w !! g = Some x → files w1 !! g = Some x)
  ∧ (∀ g, g ≠ USERS_FILE → g ≠ PRODUCTS_FILE → files w1 !! g = files w !! g)
  ∧ sess w1 = sess w ∧ flashes w1 = flashes w
  ∧ init_json_files e' w1 = (Returned tt, w1).
Proof.
  intros w1. subst w1.
  destruct (init_json_files_world e w) as (fs & Hw1 & Hu & Hp & Hother).
  split; [by rewrite Hw1|]. split; [by rewrite Hw1|].
  split; [apply init_json_files_keeps|]. split; [by rewrite Hw1|].
  split; [by rewrite Hw1|]. split; [by rewrite Hw1|].
  apply init_json_files_present; by rewrite Hw1.
Qed.

(** X6: when the products file parses, the product listing renders the
    stored list and changes nothing.  When the file is missing it renders
    the empty list after [init_json_files] has created what was missing,
    and the stored products are then the empty collection.  When the file
    holds bytes that are not UTF-8, the UnicodeDecodeError of the load
    escapes, the except clause naming only FileNotFoundError and
    JSONDecodeError, and nothing changes.  In no case is an existing file
    replaced or the identity in the session changed. *)
Theorem index_outcomes `{Werkzeug} (e : env) (w : world) :
  let w' := snd (index e w) in
  (∀ ps, stored_products w = Some ps →
     index e w = (Returned (Render "index.html" (WithProducts ps)), w))
  ∧ (files w !! PRODUCTS_FILE = None →
       index e w
       = (Returned (Render "index.html" (WithProducts [])),
          snd (init_json_files e w))
       ∧ stored_products w' = Some [])
  ∧ (∀ b, files w !! PRODUCTS_FILE = Some (Raw b) →
       PyUtf8.valid b = false →
       index e w = (Raised UnicodeDecodeError, w))
  ∧ (∀ g x, files w !! g = Some x → files w' !! g = Some x)
  ∧ sess w' = sess w.
Proof.
  intros w'. subst w'.
  destruct (index_recovers e w) as [Hmiss Hraw].
  assert (∀ b, files w !! PRODUCTS_FILE = Some (Raw b) →
            PyUtf8.valid b = false →
            index e w = (Raised UnicodeDecodeError, w)) as Hbin.
  { intros b Hf Hv. unfold index, bind at 1, try_except, bind at 1.
    by rewrite (load_json_undecodable _ _ _ Hf Hv). }
  split; [apply index_loaded|]. split.
  { intros Hf. rewrite (Hmiss Hf). split; [reflexivity|]. cbn [snd].
    unfold stored_products. by rewrite (init_json_files_products e w Hf). }
  split; [exact Hbin|].
  assert (index e w = (Returned (Render "index.html" (WithProducts [])),
                       snd (init_json_files e w))
          ∨ snd (index e w) = w) as [Hinit|Hsame].
  { destruct (files w !! PRODUCTS_FILE) as [[d|b]|] eqn:Hf.
    - right. unfold index, bind at 1, try_except, bind at 1.
      by rewrite (load_json_Json _ _ _ Hf).
    - destruct (PyUtf8.valid b) eqn:Hv.
      + left. exact (Hraw b eq_refl Hv).
      + right. by rewrite (Hbin b eq_refl Hv).
    - left. exact (Hmiss eq_refl). }
  - rewrite Hinit. cbn [snd].
    destruct (init_json_files_world e w) as (fs & Hw1 & _).
    split; [apply init_json_files_keeps|]. by rewrite Hw1.
  - rewrite Hsame. by split.
Qed.

(** X7: the product page never changes a file or the identity in the
    session.  When the products file parses it renders the first stored
    product with the requested id, and redirects to the listing with the
    not-found notice when no stored product has that id.  When the file
    is missing it redirects with the load-error notice.  When the file
    holds bytes that are not UTF-8, the UnicodeDecodeError of the load
    escapes. *)
Theorem product_detail_outcomes (i : Z) (w : world) :
  let w' := snd (product_detail i w) in
  files w' = files w ∧ sess w' = sess w
  ∧ (∀ ps k p, stored_products w = Some ps →
       ps !! k = Some p → p_id p = i →
       (∀ j q, ps !! j = Some q → (j < k)%nat → p_id q ≠ i) →
       product_detail i w
       = (Returned (Render "product_detail.html" (WithProduct p)), w))
  ∧ (∀ ps, stored_products w = Some ps → i ∉ (p_id <$> ps) →
       product_detail i w
       = (Returned (Redirect "index"),
          add_flash "Produto não encontrado" "error" w))
  ∧ (files w !! PRODUCTS_FILE = None →
       product_detail i w
       = (Returned (Redirect "index"),
          add_flash "Erro ao carregar produtos" "error" w))
  ∧ (∀ b, files w !! PRODUCTS_FILE = Some (Raw b) →
       PyUtf8.valid b = false →
       product_detail i w = (Raised UnicodeDecodeError, w)).
Proof.
  intros w'. subst w'.
  assert (files w !! PRODUCTS_FILE = None →
          product_detail i w
          = (Returned (Redirect "index"),
             add_flash "Erro ao carregar produtos" "error" w)) as Hmiss.
  { intros Hf. unfold product_detail, try_except, bind at 1.
    by rewrite (load_json_missing _ _ Hf). }
  assert (∀ b, files w !! PRODUCTS_FILE = Some (Raw b) →
            PyUtf8.valid b = false →
            product_detail i w = (Raised UnicodeDecodeError, w)) as Hbin.
  { intros b Hf Hv. unfold product_detail, try_except, bind at 1.
    by rewrite (load_json_undecodable _ _ _ Hf Hv). }
  assert (files (snd (product_detail i w)) = files w
          ∧ sess (snd (product_detail i w)) = sess w) as [Hfiles Hsess].
  { destruct (files w !! PRODUCTS_FILE) as [[d|b]|] eqn:Hf.
    - assert (stored_products w = Some (get_products d)) as Hst
        by (unfold stored_products; by rewrite Hf).
      rewrite (product_detail_run i w _ Hst).
      by destruct (find_product i (get_products d)) as [[k p]|].
    - destruct (PyUtf8.valid b) eqn:Hv.
      + assert (product_detail i w
                = (Returned (Redirect "index"),
                   add_flash "Erro ao carregar produtos" "error" w)) as ->.
        { unfold product_detail, try_except, bind at 1.
          by rewrite (load_json_Raw _ _ _ Hf Hv). }
        by split.
      + by rewrite (Hbin b eq_refl Hv).
    - by rewrite (Hmiss eq_refl). }
  split; [exact Hfiles|]. split; [exact Hsess|].
  split; [|split; [|split; [exact Hmiss|exact Hbin]]].
  - intros ps k p Hst Hk Hid Hfirst.
    rewrite (product_detail_run i w ps Hst).
    assert (find_product i ps = Some (k, p)) as ->; [|reflexivity].
    apply list_find_Some. split; [exact Hk|]. split; [exact Hid|].
    intros j q Hq Hj Heq. by apply (Hfirst j q).
  - intros ps Hst Hno. rewrite (product_detail_run i w ps Hst).
    apply find_product_None in Hno. by rewrite Hno.
Qed.

(** X8: for an administrator, [edit_product] on an id no stored product
    has answers with the not-found notice and a redirect to the admin
    panel, for GET and POST alike and whatever the form holds, and writes
    nothing; a GET for a stored id renders the form with the first
    product of that id and changes nothing. *)
Theorem edit_product_no_update `{Werkzeug} (i : Z) (r : request) (e : env)
    (w : world) (ps : list product) :
  admin_session w → stored_products w = Some ps →
  (i ∉ (p_id <$> ps) →
     edit_product i r e w
     = (Returned (Redirect "admin_panel"),
        add_flash "Produto não encontrado" "error" w))
  ∧ (∀ k p, method r = GET → find_product i ps = Some (k, p) →
       edit_product i r e w
       = (Returned (Render "edit_product.html" (WithProduct p)), w)).
Proof.
  intros Hadm Hst. unfold edit_product.
  rewrite admin_required_pass by exact Hadm. split.
  - intros Hno. apply find_product_None in Hno.
    by apply edit_product_view_missing with ps.
  - intros k p Hm Hfind. by apply edit_product_view_get with ps k.
Qed.

Lemma edit_product_no_update_witness :
  let W := sample_werkzeug in
  let shirt := with_id 1 sample_product in
  let w := world_with [] [shirt] admin_identity in
  edit_product 7 hat_request sample_env w
  = (Returned (Redirect "admin_panel"),
     add_flash "Produto não encontrado" "error" w).
Proof.
  intros W shirt w.
  assert (admin_session w) as Hadm by (split; [by eexists|reflexivity]).
  destruct (edit_product_no_update 7 hat_request sample_env w [shirt]
              Hadm eq_refl) as [Hmissing _].
  apply Hmissing. intros Hin. apply list_elem_of_singleton in Hin.
  discriminate.
Defined.

(** X9: when an administrator submits a complete create form whose price
    text is no number for [float], [add_product] raises ValueError after
    the upload has been written: the image file is in the upload folder,
    the stored products are as before, and no notice is flashed. *)
Theorem add_product_bad_price `{Werkzeug} (r : request) (e : env)
    (w : world) (ps : list product) (img : upload) :
  admin_session w → method r = POST → all_present r = true →
  files_image r = Some img →
  stored_products w = Some ps →
  form_get r "price" ≫= PyFloat.of_string = None →
  let w' := snd (add_product r e w) in
  fst (add_product r e w) = Raised ValueError
  ∧ stored_products w' = Some ps
  ∧ files w' !! (UPLOAD_FOLDER ++ "/" ++ stored_name img e)
    = Some (Raw (up_content img))
  ∧ (∀ f, f ≠ UPLOAD_FOLDER ++ "/" ++ stored_name img e →
       files w' !! f = files w !! f)
  ∧ flashes w' = flashes w ∧ sess w' = sess w.
Proof.
  intros Hadm Hm Hall Himg Hst Hbad w'. subst w'. unfold add_product.
  rewrite admin_required_pass by exact Hadm.
  rewrite (add_product_view_complete r e w ps img Hm Hall Himg Hst), Hbad.
  cbn [fst snd]. split; [reflexivity|].
  split; [by rewrite stored_products_save_image|].
  rewrite save_image_run. cbn [snd put_file files flashes sess].
  split; [apply lookup_insert_eq|]. split; [|by split].
  intros f Hf. by rewrite lookup_insert_ne.
Qed.

Lemma add_product_bad_price_witness :
  let W := sample_werkzeug in
  let w := world_with [] [] admin_identity in
  let r := post [("name", ["Hat"]); ("description", ["Straw hat"]);
                 ("price", ["ten"]); ("category", ["hats"])]
             (Some hat_image) in
  fst (add_product r sample_env w) = Raised ValueError
  ∧ stored_products (snd (add_product r sample_env w)) = Some []
  ∧ files (snd (add_product r sample_env w))
      !! "static/uploads/20240101120000_hat.png"
    = Some (Raw "PNG").
Proof.
  intros W w r.
  assert (admin_session w) as Hadm by (split; [by eexists|reflexivity]).
  destruct (add_product_bad_price r sample_env w [] hat_image
              Hadm eq_refl eq_refl eq_refl eq_refl eq_refl)
    as (Hraise & Hst & Hfile & _).
  split; [exact Hraise|]. split; [exact Hst|exact Hfile].
Defined.

(** X10: after a registration that succeeds, a login with the same email
    and password succeeds, provided the hash just generated accepts that
    password: the session carries the email with [is_admin = False] and
    the user is sent to the landing page. *)
Theorem register_then_login `{Werkzeug} (r : request) (e : env) (w : world)
    (us : list user) (em pw : string) :
  method r = POST →
  form_get r "email" = Some em → em ≠ "" →
  form_get r "password" = Some pw → pw ≠ "" →
  stored_users w = Some us → (∀ u, u ∈ us → u_email u ≠ em) →
  check_password_hash (generate_password_hash (env_salt e) pw) (Some pw)
  = Returned true →
  let w1 := snd (register r e w) in
  fst (login r w1) = Returned (Redirect "index")
  ∧ sess (snd (login r w1))
    = {| s_user_email := Some em; s_is_admin := Some false |}
  ∧ files (snd (login r w1)) = files w1.
Proof.
  intros Hm Hem Hne Hpw Hnp Hus Hfresh Hcheck w1. subst w1.
  rewrite (register_fresh r e w us em pw Hm Hem Hne Hpw Hnp Hus Hfresh).
  cbn [snd].
  erewrite login_run; [|exact Hm|].
  2:{ rewrite stored_users_add_flash. apply stored_users_put. }
  rewrite Hem, Hpw.
  rewrite (find_user_appended em us
             {| u_email := em;
                u_password := generate_password_hash (env_salt e) pw;
                u_is_admin := false |} Hfresh eq_refl).
  cbn [u_password]. rewrite Hcheck. by repeat split.
Qed.

Lemma register_then_login_witness :
  let W := sample_werkzeug in
  let w := world_with [boss] [] anonymous in
  sess (snd (login ana_request (snd (register ana_request sample_env w))))
  = {| s_user_email := Some "ana@example.com"; s_is_admin := Some false |}.
Proof.
  intros W w.
  assert (∀ u, u ∈ [boss] → u_email u ≠ "ana@example.com") as Hfresh.
  { intros u Hu. apply list_elem_of_singleton in Hu. subst u. discriminate. }
  assert ("ana@example.com" ≠ "") as Hne by discriminate.
  assert ("pw" ≠ "") as Hnp by discriminate.
  assert (check_password_hash (generate_password_hash (env_salt sample_env) "pw")
            (Some "pw") = Returned true) as Hcheck by (vm_compute; reflexivity).
  destruct (register_then_login ana_request sample_env w [boss]
              "ana@example.com" "pw" eq_refl eq_refl Hne eq_refl Hnp
              eq_refl Hfresh Hcheck) as (_ & Hsess & _).
  exact Hsess.
Defined.

(** X11: after a login that succeeds, [login_required] lets every handler
    run; [admin_required] lets it run exactly when the stored record of
    the user is an administrator and otherwise answers as to a stranger. *)
Theorem login_opens_gates `{Werkzeug} (r : request) (w : world)
    (us : list user) (u : user) (f : M response) :
  method r = POST → stored_users w = Some us →
  find_user (form_get r "email") us = Some u →
  check_password_hash (u_password u) (form_get r "password")
  = Returned true →
  let w1 := snd (login r w) in
  login_required f w1 = f w1
  ∧ (u_is_admin u = true → admin_required f w1 = f w1)
  ∧ (u_is_admin u = false → admin_required f w1 = forbidden w1).
Proof.
  intros Hm Hus Hfind Hcheck w1. subst w1.
  rewrite (login_run r w us Hm Hus), Hfind, Hcheck.
  apply find_user_Some in Hfind as [_ Hemail]. cbn [snd logged_in].
  split; [|split].
  - unfold login_required, bind, get_session. cbn.
    rewrite <- Hemail. rewrite bool_decide_eq_true_2 by (by eexists).
    reflexivity.
  - intros Hadm. apply admin_required_pass. split; cbn.
    + rewrite <- Hemail. by eexists.
    + by rewrite Hadm.
  - intros Hadm. apply admin_required_reject. intros [_ Hflag]. cbn in Hflag.
    rewrite Hadm in Hflag. discriminate.
Qed.

Lemma login_opens_gates_witness :
  let W := sample_werkzeug in
  let w := world_with [boss] [with_id 1 sample_product] anonymous in
  let w1 := snd (login boss_request w) in
  admin_required (delete_product_view 1) w1 = delete_product_view 1 w1.
Proof.
  intros W w w1.
  assert (check_password_hash (u_password boss)
            (form_get boss_request "password") = Returned true) as Hcheck
    by (vm_compute; reflexivity).
  destruct (login_opens_gates boss_request w [boss] boss
              (delete_product_view 1) eq_refl eq_refl eq_refl Hcheck)
    as (_ & Hadmin & _).
  apply Hadmin. reflexivity.
Defined.

(** X12: [logout] clears the session, identity and pending notices
    alike, so that only its own notice is pending afterwards; it changes
    no file and redirects to the landing page.  Afterwards
    [login_required] redirects to the login page without running the
    handler and without a notice, and [admin_required] answers with its
    refusal. *)
Theorem logout_closes_gates (f : M response) (w : world) :
  let w1 := snd (logout w) in
  fst (logout w) = Returned (Redirect "index")
  ∧ sess w1 = anonymous ∧ files w1 = files w
  ∧ flashes w1 = [("Logout realizado com sucesso", "success")]
  ∧ login_required f w1 = (Returned (Redirect "login"), w1)
  ∧ admin_required f w1 = forbidden w1.
Proof.
  intros w1. subst w1. do 5 (split; [reflexivity|]).
  apply admin_required_reject. intros [[x Hx] _]. discriminate.
Qed.

(** X13: after a create that succeeds, the product page of the assigned
    id shows the new product, and the listing and the admin panel show
    the former products followed by the new one. *)
Theorem add_product_then_read `{Werkzeug} (r : request) (e : env)
    (w : world) (ps : list product) (img : upload) (v : PyFloat.t) :
  admin_session w → method r = POST → all_present r = true →
  files_image r = Some img →
  form_get r "price" ≫= PyFloat.of_string = Some v →
  stored_products w = Some ps →
  let w1 := snd (add_product r e w) in
  let p := {| p_id := new_id ps;
              p_name := form_get r "name";
              p_description := form_get r "description";
              p_price := v;
              p_category := form_get r "category";
              p_sizes := form_getlist r "sizes";
              p_image := "uploads/" ++ stored_name img e;
              p_created_at := env_iso e |} in
  product_detail (new_id ps) w1
  = (Returned (Render "product_detail.html" (WithProduct p)), w1)
  ∧ index e w1
    = (Returned (Render "index.html" (WithProducts (ps ++ [p]))), w1)
  ∧ admin_panel w1
    = (Returned (Render "admin.html" (WithProducts (ps ++ [p]))), w1).
Proof.
  intros Hadm Hm Hall Himg Hv Hst w1 p.
  assert (stored_products w1 = Some (ps ++ [p])%list) as Hst1.
  { subst w1. by apply add_product_is_create. }
  assert (admin_session w1) as Hadm1.
  { eapply admin_session_sess; [|exact Hadm]. subst w1. unfold add_product.
    rewrite admin_required_pass by exact Hadm.
    rewrite (add_product_view_complete r e w ps img Hm Hall Himg Hst), Hv.
    reflexivity. }
  split; [|split].
  - rewrite (product_detail_run _ _ _ Hst1).
    by rewrite (find_product_appended ps p eq_refl).
  - by apply index_loaded.
  - by apply admin_panel_loaded.
Qed.

Lemma add_product_then_read_witness :
  let W := sample_werkzeug in
  let w := world_with [] [with_id 4 sample_product] admin_identity in
  let w1 := snd (add_product hat_request sample_env w) in
  let hat := {| p_id := 5; p_name := Some "Hat";
                p_description := Some "Straw hat";
                p_price := PyFloat.Finite false 195 (-1);
                p_category := Some "hats"; p_sizes := [];
                p_image := "uploads/20240101120000_hat.png";
                p_created_at := "2024-01-01T12:00:00" |} in
  product_detail 5 w1
  = (Returned (Render "product_detail.html" (WithProduct hat)), w1).
Proof.
  intros W w w1 hat.
  assert (admin_session w) as Hadm by (split; [by eexists|reflexivity]).
  destruct (add_product_then_read hat_request sample_env w
              [with_id 4 sample_product] hat_image
              (PyFloat.Finite false 195 (-1))
              Hadm eq_refl eq_refl eq_refl eq_refl eq_refl) as (Hpage & _).
  exact Hpage.
Defined.

(** X14: after an update that succeeds, the product page of that id
    shows the product with the submitted values. *)
Theorem edit_product_then_read `{Werkzeug} (i : Z) (r : request) (e : env)
    (w : world) (ps : list product) (k : nat) (p : product) (v : PyFloat.t) :
  admin_session w → method r = POST →
  stored_products w = Some ps → find_product i ps = Some (k, p) →
  form_get r "price" ≫= PyFloat.of_string = Some v →
  let w1 := snd (edit_product i r e w) in
  product_detail i w1
  = (Returned (Render "product_detail.html" (WithProduct (edited r e v p))),
     w1).
Proof.
  intros Hadm Hm Hst Hfind Hv w1. subst w1.
  destruct (edit_product_stored i r e w ps k p v Hadm Hm Hst Hfind Hv)
    as [_ Hst1].
  rewrite (product_detail_run _ _ _ Hst1).
  by rewrite (find_product_replaced i ps k p (edited r e v p) Hfind eq_refl).
Qed.

Lemma edit_product_then_read_witness :
  let W := sample_werkzeug in
  let shirt := with_id 1 sample_product in
  let w := world_with [] [shirt] admin_identity in
  let w1 := snd (edit_product 1 hat_request sample_env w) in
  product_detail 1 w1
  = (Returned (Render "product_detail.html"
                 (WithProduct
                    {| p_id := 1; p_name := Some "Hat";
                       p_description := Some "Straw hat";
                       p_price := PyFloat.Finite false 195 (-1);
                       p_category := Some "hats"; p_sizes := [];
                       p_image := "uploads/20240101120000_hat.png";
                       p_created_at := "2024-01-01T00:00:00" |})), w1).
Proof.
  intros W shirt w w1.
  assert (admin_session w) as Hadm by (split; [by eexists|reflexivity]).
  exact (edit_product_then_read 1 hat_request sample_env w [shirt] 0%nat
           shirt (PyFloat.Finite false 195 (-1))
           Hadm eq_refl eq_refl eq_refl eq_refl).
Defined.

(** X15: [add_product] shows its form and rejects an incomplete form
    without reading the products file and without saving the upload, so
    both work when the file is missing or is not JSON; [edit_product]
    loads the file before it looks at the request, so on a missing file
    it raises for GET and POST alike. *)
Theorem add_product_before_load `{Werkzeug} (i : Z) (r : request) (e : env)
    (w : world) :
  admin_session w →
  (method r = GET →
     add_product r e w
     = (Returned (Render "add_product.html" NoContext), w))
  ∧ (method r = POST → all_present r = false →
       add_product r e w
       = (Returned (Redirect "add_product"),
          add_flash "Preencha todos os campos" "error" w))
  ∧ (files w !! PRODUCTS_FILE = None →
       edit_product i r e w = (Raised FileNotFoundError, w)).
Proof.
  intros Hadm. unfold add_product, edit_product.
  rewrite !admin_required_pass by exact Hadm. split; [|split].
  - apply add_product_view_get.
  - apply add_product_view_incomplete.
  - intros Hf. unfold edit_product_view.
    by rewrite (bind_raised _ _ _ _ _ (load_json_missing _ _ Hf)).
Qed.

Lemma add_product_before_load_witness :
  let W := sample_werkzeug in
  let r := post [("name", ["Hat"])] (Some hat_image) in
  add_product r sample_env bare_world
  = (Returned (Redirect "add_product"),
     add_flash "Preencha todos os campos" "error" bare_world)
  ∧ edit_product 1 r sample_env bare_world
    = (Raised FileNotFoundError, bare_world).
Proof.
  intros W r.
  assert (admin_session bare_world) as Hadm
    by (split; [by eexists|reflexivity]).
  destruct (add_product_before_load 1 r sample_env bare_world Hadm)
    as (_ & Hpost & Hedit).
  split; [by apply Hpost|by apply Hedit].
Defined.

(** X16: on a store without users file, after [init_json_files] a login
    with admin@modabrasileira.com and admin123 opens an admin session
    and leads to the admin panel, provided the hash generated for
    admin123 accepts admin123. *)
Theorem default_admin_login `{Werkzeug} (r : request) (e : env) (w : world) :
  files w !! USERS_FILE = None →
  method r = POST →
  form_get r "email" = Some "admin@modabrasileira.com" →
  form_get r "password" = Some "admin123" →
  check_password_hash (generate_password_hash (env_salt e) "admin123")
    (Some "admin123") = Returned true →
  let w1 := snd (init_json_files e w) in
  stored_users w1 = Some [default_admin e]
  ∧ fst (login r w1) = Returned (Redirect "admin_panel")
  ∧ admin_session (snd (login r w1)).
Proof.
  intros Hf Hm Hem Hpw Hcheck w1.
  assert (stored_users w1 = Some [default_admin e]) as Hus.
  { unfold stored_users. subst w1. by rewrite (init_json_files_users e w Hf). }
  split; [exact Hus|].
  rewrite (login_run r w1 [default_admin e] Hm Hus), Hem, Hpw.
  unfold find_user. cbn [List.find default_admin u_email].
  rewrite bool_decide_eq_true_2 by reflexivity.
  change (u_password (default_admin e))
    with (generate_password_hash (env_salt e) "admin123").
  rewrite Hcheck.
  split; [reflexivity|]. split; [by eexists|reflexivity].
Qed.

Lemma default_admin_login_witness :
  let W := sample_werkzeug in
  admin_session
    (snd (login boss_request
            (snd (init_json_files sample_env bare_world)))).
Proof.
  intros W.
  assert (check_password_hash
            (generate_password_hash (env_salt sample_env) "admin123")
            (Some "admin123") = Returned true) as Hcheck
    by (vm_compute; reflexivity).
  destruct (default_admin_login boss_request sample_env bare_world
              eq_refl eq_refl eq_refl eq_refl Hcheck) as (_ & _ & Hadm).
  exact Hadm.
Defined.

(** X17: [delete_product] and [edit_product] never remove a file.  A
    delete leaves every file but the products file as it was, so the
    image of a deleted product stays in the upload folder; an update
    without upload does the same, and an update with upload keeps every
    file that existed. *)
Theorem mutations_keep_files `{Werkzeug} (i : Z) (r : request) (e : env)
    (w : world) (ps : list product) :
  admin_session w → stored_products w = Some ps →
  (∀ f, f ≠ PRODUCTS_FILE →
     files (snd (delete_product i w)) !! f = files w !! f)
  ∧ (∀ f, is_Some (files w !! f) →
       is_Some (files (snd (edit_product i r e w)) !! f))
  ∧ (upload_truthy (files_image r) = false →
       ∀ f, f ≠ PRODUCTS_FILE →
         files (snd (edit_product i r e w)) !! f = files w !! f).
Proof.
  intros Hadm Hst. split; [|split].
  - intros f Hf. unfold delete_product.
    rewrite admin_required_pass by exact Hadm.
    rewrite (delete_product_view_run i w ps Hst). cbn.
    by rewrite lookup_insert_ne.
  - intros f Hf. unfold edit_product.
    rewrite admin_required_pass by exact Hadm.
    destruct (find_product i ps) as [[k p]|] eqn:Hfind.
    2:{ by rewrite (edit_product_view_missing i r e w ps Hst Hfind). }
    destruct (method r) eqn:Hm.
    { by rewrite (edit_product_view_get i r e w ps k p Hm Hst Hfind). }
    rewrite (edit_product_view_post i r e w ps k p Hm Hst Hfind).
    destruct (form_get r "price") as [s|]; [|exact Hf].
    destruct (PyFloat.of_string s) as [v|]; [|exact Hf].
    cbn [snd add_flash put_file files].
    apply lookup_insert_is_Some'. right.
    unfold after_upload. destruct (files_image r) as [img|]; [|exact Hf].
    destruct (upload_truthy (Some img)); [|exact Hf].
    rewrite save_image_run. cbn [snd put_file files].
    apply lookup_insert_is_Some'. by right.
  - intros Hno f Hf. unfold edit_product.
    rewrite admin_required_pass by exact Hadm.
    destruct (find_product i ps) as [[k p]|] eqn:Hfind.
    2:{ by rewrite (edit_product_view_missing i r e w ps Hst Hfind). }
    destruct (method r) eqn:Hm.
    { by rewrite (edit_product_view_get i r e w ps k p Hm Hst Hfind). }
    rewrite (edit_product_view_post i r e w ps k p Hm Hst Hfind).
    destruct (form_get r "price") as [s|]; [|reflexivity].
    destruct (PyFloat.of_string s) as [v|]; [|reflexivity].
    cbn [snd add_flash put_file files].
    rewrite lookup_insert_ne by done.
    unfold after_upload. destruct (files_image r) as [img|]; [|reflexivity].
    by rewrite Hno.
Qed.

Lemma mutations_keep_files_witness :
  let W := sample_werkzeug in
  let w0 := world_with [] [] admin_identity in
  let w := snd (add_product hat_request sample_env w0) in
  files (snd (delete_product 1 w)) !! "static/uploads/20240101120000_hat.png"
  = Some (Raw "PNG").
Proof.
  intros W w0 w.
  assert (admin_session w) as Hadm by (split; [by eexists|reflexivity]).
  destruct (mutations_keep_files 1 hat_request sample_env w
              [ {| p_id := 1; p_name := Some "Hat";
                   p_description := Some "Straw hat";
                   p_price := PyFloat.Finite false 195 (-1);
                   p_category := Some "hats"; p_sizes := [];
                   p_image := "uploads/20240101120000_hat.png";
                   p_created_at := "2024-01-01T12:00:00" |} ]
              Hadm eq_refl) as (Hdelete & _).
  rewrite Hdelete by discriminate. reflexivity.
Defined.

Lemma new_id_create (p : product) (ps : list product) :
  new_id (create p ps) = new_id ps + 1.
Proof. unfold new_id at 1. by rewrite max_default_create. Qed.

(** X18: the name of a stored upload depends on the clock reading to the
    second and on the sanitised file name only.  Two creates that succeed
    with the same reading and the same sanitised name store both products
    with the same image reference, and the file holds the bytes of the
    second upload. *)
Theorem same_second_uploads_collide `{Werkzeug} (r1 r2 : request)
    (e1 e2 : env) (w : world) (ps : list product) (img1 img2 : upload)
    (v1 v2 : PyFloat.t) :
  admin_session w → stored_products w = Some ps →
  method r1 = POST → all_present r1 = true → files_image r1 = Some img1 →
  form_get r1 "price" ≫= PyFloat.of_string = Some v1 →
  method r2 = POST → all_present r2 = true → files_image r2 = Some img2 →
  form_get r2 "price" ≫= PyFloat.of_string = Some v2 →
  env_stamp e1 = env_stamp e2 →
  secure_filename (up_filename img1) = secure_filename (up_filename img2) →
  let w2 := snd (add_product r2 e2 (snd (add_product r1 e1 w))) in
  ∃ p1 p2,
    stored_products w2 = Some (ps ++ [p1; p2])%list
    ∧ p_id p1 = new_id ps ∧ p_id p2 = new_id ps + 1
    ∧ p_image p1 = "uploads/" ++ stored_name img1 e1
    ∧ p_image p2 = p_image p1
    ∧ files w2 !! (UPLOAD_FOLDER ++ "/" ++ stored_name img1 e1)
      = Some (Raw (up_content img2)).
Proof.
  intros Hadm Hst Hm1 Hall1 Himg1 Hv1 Hm2 Hall2 Himg2 Hv2 Hstamp Hname w2.
  assert (stored_name img2 e2 = stored_name img1 e1) as Hsame.
  { unfold stored_name. by rewrite Hstamp, Hname. }
  set (w1 := snd (add_product r1 e1 w)) in *.
  pose proof (add_product_is_create r1 e1 w ps img1 v1
                Hadm Hm1 Hall1 Himg1 Hv1 Hst) as Hst1. fold w1 in Hst1.
  assert (admin_session w1) as Hadm1.
  { eapply admin_session_sess; [|exact Hadm]. subst w1. unfold add_product.
    rewrite admin_required_pass by exact Hadm.
    rewrite (add_product_view_complete r1 e1 w ps img1 Hm1 Hall1 Himg1 Hst),
      Hv1. reflexivity. }
  eexists _, _. split.
  { subst w2.
    rewrite (add_product_is_create r2 e2 w1 _ img2 v2
               Hadm1 Hm2 Hall2 Himg2 Hv2 Hst1).
    unfold create. rewrite <- app_assoc. reflexivity. }
  cbn [with_id p_id p_image]. split; [reflexivity|].
  split; [apply new_id_create|]. split; [reflexivity|].
  split; [by rewrite Hsame|].
  subst w2. unfold add_product. rewrite admin_required_pass by exact Hadm1.
  rewrite (add_product_view_complete r2 e2 w1 _ img2 Hm2 Hall2 Himg2 Hst1),
    Hv2.
  rewrite save_image_run. cbn [snd add_flash put_file files].
  rewrite lookup_insert_ne by (symmetry; apply upload_path_not_products).
  rewrite Hsame. apply lookup_insert_eq.
Qed.

Lemma same_second_uploads_collide_witness :
  let W := sample_werkzeug in
  let w := world_with [] [] admin_identity in
  let other := post [("name", ["Cap"]); ("description", ["Blue cap"]);
                     ("price", ["9"]); ("category", ["hats"])]
                 (Some {| up_filename := "hat.png"; up_content := "JPG" |}) in
  let w2 := snd (add_product other sample_env
                   (snd (add_product hat_request sample_env w))) in
  files w2 !! "static/uploads/20240101120000_hat.png" = Some (Raw "JPG")
  ∧ (λ ps : list product, p_image <$> ps) <$> stored_products w2
    = Some ["uploads/20240101120000_hat.png";
            "uploads/20240101120000_hat.png"].
Proof.
  intros W w other w2.
  assert (admin_session w) as Hadm by (split; [by eexists|reflexivity]).
  destruct (same_second_uploads_collide hat_request other sample_env
              sample_env w [] hat_image
              {| up_filename := "hat.png"; up_content := "JPG" |}
              (PyFloat.Finite false 195 (-1)) (PyFloat.Finite false 9 0)
              Hadm eq_refl eq_refl eq_refl eq_refl eq_refl
              eq_refl eq_refl eq_refl eq_refl eq_refl eq_refl)
    as (p1 & p2 & Hst & _ & _ & Himg1 & Himg2 & Hfile).
  split; [exact Hfile|].
  fold w2 in Hst. rewrite Hst. cbn. by rewrite Himg2, Himg1.
Defined.

(** X19: [login] hands the submitted password, present or not, to
    [check_password_hash] only when a record with the submitted email is
    stored.  An exception of the check then escapes [login] with nothing
    flashed or written, while for an email no record has the answer is
    the invalid-credentials notice whatever the password field holds. *)
Theorem login_check_only_for_known_email `{Werkzeug} (r : request)
    (w : world) (us : list user) :
  method r = POST → stored_users w = Some us →
  (∀ u ex, find_user (form_get r "email") us = Some u →
     check_password_hash (u_password u) (form_get r "password") = Raised ex →
     login r w = (Raised ex, w))
  ∧ (find_user (form_get r "email") us = None →
       login r w = invalid_credentials w).
Proof.
  intros Hm Hus. rewrite (login_run r w us Hm Hus). split.
  - intros u ex Hfind Hcheck. by rewrite Hfind, Hcheck.
  - intros Hfind. by rewrite Hfind.
Qed.

Lemma login_check_only_for_known_email_witness :
  let W := sample_werkzeug in
  let w := world_with [boss] [] anonymous in
  let known := post [("email", ["admin@modabrasileira.com"])] None in
  let unknown := post [("email", ["nobody@example.com"])] None in
  login known w = (Raised (OtherError "AttributeError"), w)
  ∧ login unknown w = invalid_credentials w.
Proof.
  intros W w known unknown. split.
  - destruct (login_check_only_for_known_email known w [boss]
                eq_refl eq_refl) as [Hraise _].
    apply (Hraise boss); reflexivity.
  - destruct (login_check_only_for_known_email unknown w [boss]
                eq_refl eq_refl) as [_ Hunknown].
    apply Hunknown. reflexivity.
Defined.
